(** * Multi-Modal RAG chatbot: the chunker and the retriever builder

    A shallow embedding of [src/src/data_processing.py] (function
    [partition_and_chunk]) and [src/src/vector_store.py] (function
    [create_retriever]), with the properties the specification states
    about them.

    Conventions of the embedding:
    - a Python [str] is a [string]; its characters are the code points
      below 256;
    - a Python exception is a value of [Exn], and a call returns an
      [Outcome];
    - the libraries and services the code calls ([partition_pdf], the
      OpenAI models, Chroma, the file system) are a [World]: a record of
      functions giving what each call answers, [None] or [false] when
      the call raises.  Every call made is appended to a trace. *)

From Stdlib Require Import String Ascii List Bool Arith ZArith QArith Lia.
From Stdlib Require Import Sorted DecimalString.
Import ListNotations.

Close Scope Q_scope.
Local Open Scope nat_scope.
Local Open Scope string_scope.
Local Open Scope list_scope.

(** ** Python values *)

Module Py.

(** The newline character and the one-character string ["\n"]. *)
Definition newline : ascii := ascii_of_nat 10.
Definition NL : string := String newline EmptyString.

(** Truth value of a [str]: the empty string is false. *)
Definition truthy (s : string) : bool :=
  match s with
  | EmptyString => false
  | String _ _ => true
  end.

(** Truth value of a value that is a [str] or [None]. *)
Definition truthy_opt (o : option string) : bool :=
  match o with
  | None => false
  | Some s => truthy s
  end.

(** [x or d] on an integer that may be [None]. *)
Definition int_or (o : option Z) (d : Z) : Z :=
  match o with
  | None => d
  | Some n => if Z.eqb n 0 then d else n
  end.

(** [str.isspace] on one character (code points below 256). *)
Definition isspace (c : ascii) : bool :=
  let n := nat_of_ascii c in
  (((9 <=? n) && (n <=? 13)) || ((28 <=? n) && (n <=? 32))
   || (n =? 133) || (n =? 160))%nat.

Fixpoint lstrip (s : string) : string :=
  match s with
  | EmptyString => EmptyString
  | String c s' => if isspace c then lstrip s' else s
  end.

Fixpoint rstrip (s : string) : string :=
  match s with
  | EmptyString => EmptyString
  | String c s' =>
      match rstrip s' with
      | EmptyString => if isspace c then EmptyString else String c EmptyString
      | r => String c r
      end
  end.

(** [str.strip()] with no argument. *)
Definition strip (s : string) : string := rstrip (lstrip s).

(** [os.path.basename] (POSIX): what follows the last slash. *)
Fixpoint basename (p : string) : string :=
  match p with
  | EmptyString => EmptyString
  | String c p' =>
      if existsb (Ascii.eqb "/"%char) (list_ascii_of_string p')
      then basename p'
      else if Ascii.eqb c "/"%char then p' else p
  end.

(** [a.endswith(b)]. *)
Definition endswith (a b : string) : bool :=
  let la := String.length a in
  let lb := String.length b in
  (lb <=? la)%nat && String.eqb (substring (la - lb) lb a) b.

(** [os.path.join(a, b)] (POSIX) with two components. *)
Definition path_join (a b : string) : string :=
  if prefix "/" b then b
  else if negb (truthy a) || endswith a "/" then a ++ b
  else a ++ "/" ++ b.

(** [str(n)] on a non-negative integer. *)
Definition str_of_nat (n : nat) : string :=
  NilEmpty.string_of_uint (Nat.to_uint n).

End Py.

(** ** Exceptions and outcomes *)

(** A call of a library or service, as recorded in the trace. *)
Inductive Call : Type :=
| MakeDirs (dir : string)
| PartitionPdf (filename image_dir : string)
| EncodeImage (image_path : option string)
| SummarizeImage (encoded_image : string) (api_key : option string)
| SummarizeTable (table_html : string) (api_key : option string)
| ChromaFromDocuments (model : string) (api_key : option string)
| OpenAIEmbeddingsInit (model : string) (api_key : option string)
| BM25FromDocuments.

Inductive Exn : Type :=
| ValueError (msg : string)
| NameError (name : string)
| ExternalError (raised_by : Call).

Inductive Outcome (A : Type) : Type :=
| Returned (a : A)
| Raised (e : Exn).

Arguments Returned {A} a.
Arguments Raised {A} e.

(** ** [src/src/data_processing.py] *)

Module DataProcessing.

Import Py.

(** The classes that line 7 imports from
    [unstructured.documents.elements].  The library is not part of the
    repository; its class declarations decide what the [isinstance]
    tests of the function answer.  There [Text] is the base class of
    the six other classes imported, so that [isinstance(el, Text)]
    holds of an element of any of the seven.  [OtherElement] stands for
    an element whose class is not derived from [Text] (the library's
    [CheckBox]): the only elements that get past the test of line 79. *)
Inductive ElementClass : Type :=
| Title | Header | NarrativeText | ListItem | Text | Image | Table
| OtherElement.

(** [el.metadata] : the fields the function reads. *)
Record ElementMetadata : Type := mkElementMetadata {
  page_number : option Z;
  image_path : option string;
  text_as_html : option string
}.

Record Element : Type := mkElement {
  el_class : ElementClass;
  text : string;
  el_metadata : ElementMetadata
}.

(** The [metadata] dict of a [Document]: always the same three keys. *)
Record Metadata : Type := mkMetadata {
  source : string;
  md_page_number : Z;
  element_id : nat
}.

(** [langchain.schema.Document]. *)
Record Document : Type := mkDocument {
  page_content : string;
  doc_metadata : Metadata
}.

(** What the outside answers. *)
Record World : Type := mkWorld {
  makedirs : string -> bool;
  partition_pdf : string -> string -> option (list Element);
  encode_image : option string -> option string;
  summarize_image : string -> option string -> option string;
  summarize_table : string -> option string -> option string
}.

(** [isinstance(el, (Title, Header))] *)
Definition is_title_or_header (el : Element) : bool :=
  match el_class el with
  | Title | Header => true
  | _ => false
  end.

(** [isinstance(el, (NarrativeText, ListItem, Text))] (line 79), on an
    element that the test of line 70 has let through: true of an
    instance of [Text] or of one of its subclasses, [Image] and [Table]
    among them. *)
Definition is_narrative (el : Element) : bool :=
  match el_class el with
  | NarrativeText | ListItem | Text | Image | Table => true
  | _ => false
  end.

(** The variables of the [for] loop.  [metadata] is unbound ([None])
    until the first iteration binds it. *)
Record LoopState : Type := mkLoopState {
  documents : list Document;
  current_title : string;
  current_text_block : string;
  metadata : option Metadata;
  calls : list Call
}.

(** [{"source": ..., "page_number": ..., "element_id": i}] (line 68) *)
Definition element_metadata (pdf_path : string) (i : nat) (el : Element)
  : Metadata :=
  {| source := basename pdf_path;
     md_page_number := int_or (page_number (el_metadata el)) 1;
     element_id := i |}.

(** [Document(page_content=f"{current_title}\n\n{current_text_block.strip()}", ...)] *)
Definition text_document (title block : string) (md : Metadata) : Document :=
  {| page_content := title ++ NL ++ NL ++ strip block; doc_metadata := md |}.

(** [if current_text_block: documents.append(...)] (lines 72-73, 84-85) *)
Definition flush (st : LoopState) (md : Metadata) : list Document :=
  if truthy (current_text_block st)
  then [text_document (current_title st) (current_text_block st) md]
  else [].

(** The body of the [try] of lines 90-94, up to the summary: [None] when
    [encode_image] or [summarize_image] raises. *)
Definition image_summary (W : World) (key : option string) (el : Element)
  : option string :=
  match encode_image W (image_path (el_metadata el)) with
  | None => None
  | Some encoded_image => summarize_image W encoded_image key
  end.

Definition image_calls (W : World) (key : option string) (el : Element)
  : list Call :=
  let p := image_path (el_metadata el) in
  match encode_image W p with
  | None => [EncodeImage p]
  | Some encoded_image => [EncodeImage p; SummarizeImage encoded_image key]
  end.

(** Lines 89-96. *)
Definition image_document (W : World) (key : option string)
  (title : string) (el : Element) (md : Metadata) : Document :=
  match image_summary W key el with
  | Some summary =>
      mkDocument ("[Image under '" ++ title ++ "']" ++ NL ++ "Summary: "
                  ++ summary) md
  | None => mkDocument ("[Image under '" ++ title ++ "']") md
  end.

(** The body of the [try] of lines 99-101. *)
Definition table_summary (W : World) (key : option string) (el : Element)
  : option string :=
  match text_as_html (el_metadata el) with
  | None => None
  | Some html => summarize_table W html key
  end.

Definition table_calls (key : option string) (el : Element) : list Call :=
  match text_as_html (el_metadata el) with
  | None => []
  | Some html => [SummarizeTable html key]
  end.

(** Lines 98-103, under the test [el.metadata.text_as_html]. *)
Definition table_document (W : World) (key : option string)
  (title : string) (el : Element) (md : Metadata) : Document :=
  match table_summary W key el with
  | Some summary =>
      mkDocument ("[Table under '" ++ title ++ "']" ++ NL ++ "Summary: "
                  ++ summary) md
  | None => mkDocument ("[Table under '" ++ title ++ "']") md
  end.

Section Chunker.

Variable W : World.
Variable pdf_path : string.
Variable use_enhanced_processing : bool.
Variable openai_api_key : option string.

(** One iteration of the loop (lines 68-103) on element [el] of index [i]. *)
Definition loop_body (st : LoopState) (i : nat) (el : Element) : LoopState :=
  let md := element_metadata pdf_path i el in
  if is_title_or_header el then
    {| documents := documents st ++ flush st md;
       current_title := text el;
       current_text_block := "";
       metadata := Some md;
       calls := calls st |}
  else if is_narrative el then
    {| documents := documents st;
       current_title := current_title st;
       current_text_block := current_text_block st ++ text el ++ NL;
       metadata := Some md;
       calls := calls st |}
  else if use_enhanced_processing then
    let flushed := documents st ++ flush st md in
    let block := if truthy (current_text_block st) then ""
                 else current_text_block st in
    match el_class el with
    | Image =>
        {| documents :=
             flushed ++ [image_document W openai_api_key (current_title st) el md];
           current_title := current_title st;
           current_text_block := block;
           metadata := Some md;
           calls := calls st ++ image_calls W openai_api_key el |}
    | Table =>
        if truthy_opt (text_as_html (el_metadata el)) then
          {| documents :=
               flushed ++ [table_document W openai_api_key (current_title st) el md];
             current_title := current_title st;
             current_text_block := block;
             metadata := Some md;
             calls := calls st ++ table_calls openai_api_key el |}
        else
          {| documents := flushed;
             current_title := current_title st;
             current_text_block := block;
             metadata := Some md;
             calls := calls st |}
    | _ =>
        {| documents := flushed;
           current_title := current_title st;
           current_text_block := block;
           metadata := Some md;
           calls := calls st |}
    end
  else
    {| documents := documents st;
       current_title := current_title st;
       current_text_block := current_text_block st;
       metadata := Some md;
       calls := calls st |}.

(** The units an iteration appends to [documents] (see [body_documents]). *)
Definition emitted (st : LoopState) (i : nat) (el : Element) : list Document :=
  let md := element_metadata pdf_path i el in
  if is_title_or_header el then flush st md
  else if is_narrative el then []
  else if use_enhanced_processing then
    flush st md ++
    match el_class el with
    | Image => [image_document W openai_api_key (current_title st) el md]
    | Table =>
        if truthy_opt (text_as_html (el_metadata el))
        then [table_document W openai_api_key (current_title st) el md]
        else []
    | _ => []
    end
  else [].

(** [for i, el in enumerate(raw_pdf_elements)], from index [i] on. *)
Fixpoint loop (i : nat) (els : list Element) (st : LoopState) : LoopState :=
  match els with
  | [] => st
  | el :: rest => loop (S i) rest (loop_body st i el)
  end.

(** Lines 63-65, after the calls of lines 51 and 53. *)
Definition initial_state (done : list Call) : LoopState :=
  {| documents := [];
     current_title := "";
     current_text_block := "";
     metadata := None;
     calls := done |}.

(** Lines 105-109.  Reading [metadata] while it is unbound raises
    [NameError]. *)
Definition finish (st : LoopState) : Outcome (list Document) :=
  if truthy (current_text_block st) then
    match metadata st with
    | Some md =>
        Returned (documents st
                  ++ [text_document (current_title st) (current_text_block st) md])
    | None => Raised (NameError "metadata")
    end
  else Returned (documents st).

(** [partition_and_chunk]: the trace of the calls made, and the outcome. *)
Definition partition_and_chunk (temp_dir : string)
  : list Call * Outcome (list Document) :=
  if use_enhanced_processing && negb (truthy_opt openai_api_key) then
    ([], Raised (ValueError "OpenAI API key is required for enhanced processing."))
  else
    let image_output_dir := path_join temp_dir "images" in
    if makedirs W image_output_dir then
      match partition_pdf W pdf_path image_output_dir with
      | Some raw_pdf_elements =>
          let st :=
            loop 0 raw_pdf_elements
              (initial_state [MakeDirs image_output_dir;
                              PartitionPdf pdf_path image_output_dir]) in
          (calls st, finish st)
      | None =>
          ([MakeDirs image_output_dir; PartitionPdf pdf_path image_output_dir],
           Raised (ExternalError (PartitionPdf pdf_path image_output_dir)))
      end
    else
      ([MakeDirs image_output_dir],
       Raised (ExternalError (MakeDirs image_output_dir))).

(** The state of the loop once the elements [els] have been processed,
    starting from the beginning of the document. *)
Definition state_after (temp_dir : string) (els : list Element) : LoopState :=
  let image_output_dir := path_join temp_dir "images" in
  loop 0 els
    (initial_state [MakeDirs image_output_dir;
                    PartitionPdf pdf_path image_output_dir]).

End Chunker.

(** The layout extraction of [pdf_path] succeeds and yields [els]. *)
Definition reads (W : World) (pdf_path temp_dir : string)
  (els : list Element) : Prop :=
  makedirs W (path_join temp_dir "images") = true
  /\ partition_pdf W pdf_path (path_join temp_dir "images") = Some els.

(** The text block gathered from the narrative elements of [els]. *)
Fixpoint narrative_block (els : list Element) : string :=
  match els with
  | [] => ""
  | el :: rest =>
      if is_narrative el then text el ++ NL ++ narrative_block rest
      else narrative_block rest
  end.

(** The two forms a unit's content takes: a title, a blank line and the
    stripped text of a block; or a bracketed image or table prefix,
    possibly followed by a summary.  In a unit flushed from the input
    [els] the block is the text gathered from a run of consecutive
    elements of [els], one of them at least passing the test of line
    79: the block is not empty. *)
Definition flushed_unit (els : list Element) (d : Document) : Prop :=
  exists title before body after,
    els = before ++ body ++ after
    /\ existsb is_narrative body = true
    /\ page_content d
       = (title ++ NL ++ NL ++ strip (narrative_block body))%string.

Definition bracketed_unit (d : Document) : Prop :=
  exists rest,
    page_content d = ("[Image under '" ++ rest)%string
    \/ page_content d = ("[Table under '" ++ rest)%string.

(** The elements that flush the pending text block: a title or header,
    and under enhanced processing whatever is not narrative. *)
Definition triggers_flush (use_enhanced_processing : bool) (el : Element)
  : bool :=
  is_title_or_header el || (negb (is_narrative el) && use_enhanced_processing).

(** Two loop states hold the same values in the variables of the
    function (the traces of calls may differ). *)
Definition same_variables (s1 s2 : LoopState) : Prop :=
  documents s1 = documents s2
  /\ current_title s1 = current_title s2
  /\ current_text_block s1 = current_text_block s2
  /\ metadata s1 = metadata s2.


(** [element_id] of a unit. *)
Definition unit_id (d : Document) : nat := element_id (doc_metadata d).

(** Worlds and elements used in examples. *)

Definition plain (c : ElementClass) (t : string) : Element :=
  mkElement c t (mkElementMetadata (Some 1%Z) None None).

(** The elements of the scenario of two titled sections. *)
Definition two_sections : list Element :=
  [plain Title "Intro"; plain NarrativeText "Hello world.";
   plain Title "Section 2"; plain NarrativeText "More text."].

(** A paragraph of page 1 followed by a title of page 2, then a trailing
    paragraph of page 3. *)
Definition page_break_elements : list Element :=
  [mkElement NarrativeText "First page." (mkElementMetadata (Some 1%Z) None None);
   mkElement Title "Second" (mkElementMetadata (Some 2%Z) None None);
   mkElement ListItem "item" (mkElementMetadata None None None)].

(** A titled paragraph, a figure and a table, in a document read while
    no model can be reached. *)
Definition figure_elements : list Element :=
  [plain Title "Results"; plain Text "See the figure.";
   mkElement Image "" (mkElementMetadata (Some 3%Z) (Some "figure-3-1.jpg") None);
   mkElement Table "a b" (mkElementMetadata (Some 3%Z) None (Some "<table></table>"))].

(** A world where the PDF has the elements [els] and no model answers. *)
Definition offline_world (els : list Element) : World :=
  {| makedirs := fun _ => true;
     partition_pdf := fun _ _ => Some els;
     encode_image := fun _ => None;
     summarize_image := fun _ _ => None;
     summarize_table := fun _ _ => None |}.

(** A world where the PDF has the elements [els] and every model call
    answers [reply]. *)
Definition online_world (els : list Element) (reply : string) : World :=
  {| makedirs := fun _ => true;
     partition_pdf := fun _ _ => Some els;
     encode_image := fun p => match p with Some _ => Some "aGVsbG8=" | None => None end;
     summarize_image := fun _ _ => Some reply;
     summarize_table := fun _ _ => Some reply |}.

End DataProcessing.

(** ** [src/src/vector_store.py] *)

Module VectorStore.

Import Py.

Definition Document : Type := DataProcessing.Document.

(** The records of [logger]. *)
Inductive Level : Type := INFO | WARNING.

Definition LogRecord : Type := (Level * string)%type.

(** [OpenAIEmbeddings(model=..., api_key=...)] *)
Record OpenAIEmbeddings : Type := mkOpenAIEmbeddings {
  model : string;
  api_key : option string
}.

(** The handle of a Chroma store built from documents. *)
Record Chroma : Type := mkChroma {
  collection : list Document;
  embedding_function : OpenAIEmbeddings
}.

(** [vectorstore.as_retriever(search_kwargs=...)]; the dict is kept as
    its list of items. *)
Record VectorStoreRetriever : Type := mkVectorStoreRetriever {
  vectorstore : Chroma;
  search_kwargs : list (string * Z)
}.

Record BM25Retriever : Type := mkBM25Retriever {
  docs : list Document;
  k : Z
}.

Inductive Retriever : Type :=
| Dense (r : VectorStoreRetriever)
| Keyword (r : BM25Retriever).

(** [EnsembleRetriever(retrievers=..., weights=...)]; the decimal
    literals [0.7] and [0.3] are kept as the rationals they denote. *)
Record EnsembleRetriever : Type := mkEnsembleRetriever {
  retrievers : list Retriever;
  weights : list Q
}.

(** What the outside answers: whether the embeddings client can be
    built, whether embedding the documents into a Chroma store
    succeeds, whether the BM25 index can be built over the documents,
    and the depth a new [BM25Retriever] has. *)
Record World : Type := mkWorld {
  builds_embeddings : string -> option string -> bool;
  embeds : list Document -> OpenAIEmbeddings -> bool;
  builds_bm25 : list Document -> bool;
  bm25_default_k : Z
}.

(** [OpenAIEmbeddings(model=..., api_key=...)] (line 17) *)
Definition OpenAIEmbeddings_init (W : World) (model : string)
  (api_key : option string) : Outcome OpenAIEmbeddings :=
  if builds_embeddings W model api_key
  then Returned (mkOpenAIEmbeddings model api_key)
  else Raised (ExternalError (OpenAIEmbeddingsInit model api_key)).

(** [Chroma.from_documents(documents, embedding_function)] (line 20) *)
Definition Chroma_from_documents (W : World) (documents : list Document)
  (embedding_function : OpenAIEmbeddings) : Outcome Chroma :=
  if embeds W documents embedding_function
  then Returned (mkChroma documents embedding_function)
  else Raised (ExternalError
                 (ChromaFromDocuments (model embedding_function)
                                      (api_key embedding_function))).

(** [BM25Retriever.from_documents(documents)] (line 24) *)
Definition BM25Retriever_from_documents (W : World)
  (documents : list Document) : Outcome BM25Retriever :=
  if builds_bm25 W documents
  then Returned (mkBM25Retriever documents (bm25_default_k W))
  else Raised (ExternalError BM25FromDocuments).

(** [create_retriever]: the records logged, and the outcome.  A
    [Returned None] is the Python value [None]. *)
Definition create_retriever (W : World) (documents : list Document)
  (openai_api_key : option string) (k : Z)
  : list LogRecord * Outcome (option EnsembleRetriever) :=
  match documents with
  | [] =>
      ([(WARNING, "No documents provided to create_retriever. Returning None.")],
       Returned None)
  | _ :: _ =>
      let log :=
        [(INFO, ("Creating retriever for " ++ str_of_nat (length documents)
                 ++ " documents...")%string);
         (INFO, "Initializing OpenAI embeddings...")] in
      match OpenAIEmbeddings_init W "text-embedding-3-large" openai_api_key with
      | Raised e => (log, Raised e)
      | Returned embedding_function =>
          let log :=
            log ++ [(INFO, "Creating Chroma vector store for dense retrieval...")] in
          match Chroma_from_documents W documents embedding_function with
          | Raised e => (log, Raised e)
          | Returned vectorstore =>
              let dense_retriever :=
                mkVectorStoreRetriever vectorstore [("k", 10%Z)] in
              let log :=
                log ++ [(INFO, "Creating BM25 retriever for keyword retrieval...")] in
              match BM25Retriever_from_documents W documents with
              | Raised e => (log, Raised e)
              | Returned bm25_retriever =>
                  let bm25_retriever :=
                    mkBM25Retriever (docs bm25_retriever) 10%Z in
                  let log :=
                    log ++ [(INFO, "Creating ensemble retriever with weights [0.7 dense, 0.3 keyword]...")] in
                  let ensemble_retriever :=
                    mkEnsembleRetriever
                      [Dense dense_retriever; Keyword bm25_retriever]
                      [7 # 10; 3 # 10]%Q in
                  (log ++ [(INFO, "Retriever created successfully.")],
                   Returned (Some ensemble_retriever))
              end
          end
      end
  end.

(** The default of the parameter [k]. *)
Definition default_k : Z := 5.

(** Two units to index. *)
Definition two_units : list Document :=
  [DataProcessing.mkDocument "Intro" (DataProcessing.mkMetadata "report.pdf" 1 2);
   DataProcessing.mkDocument "Section 2"
     (DataProcessing.mkMetadata "report.pdf" 1 3)].

(** A world where embedding succeeds, and one where it raises. *)
Definition embedding_world : World :=
  {| builds_embeddings := fun _ _ => true;
     embeds := fun _ _ => true;
     builds_bm25 := fun _ => true;
     bm25_default_k := 4 |}.

Definition no_embedding_world : World :=
  {| builds_embeddings := fun _ _ => true;
     embeds := fun _ _ => false;
     builds_bm25 := fun _ => true;
     bm25_default_k := 4 |}.

End VectorStore.

(** ** Views of the chunker's input and output *)

Module ChunkerViews.

Import Py DataProcessing.

(** The image and table elements that lines 89 and 98 would turn into a
    unit. *)
Definition summarized (el : Element) : bool :=
  match el_class el with
  | Image => true
  | Table => truthy_opt (text_as_html (el_metadata el))
  | _ => false
  end.

(** The elements out of which some unit is made: narrative text, and
    under enhanced processing the summarized ones. *)
Definition productive (use_enhanced_processing : bool) (el : Element) : bool :=
  is_narrative el || (use_enhanced_processing && summarized el).

(** The elements that the function looks at when enhanced processing is
    off: titles, headers and the instances of [Text]. *)
Definition kept (el : Element) : bool :=
  is_title_or_header el || is_narrative el.

(** The element with its class changed to [Text], when it is an image
    or a table. *)
Definition as_text (el : Element) : Element :=
  match el_class el with
  | Image | Table => mkElement Text (text el) (el_metadata el)
  | _ => el
  end.

(** The world [W] on a day when the PDF has the elements [els]. *)
Definition reading (W : World) (els : list Element) : World :=
  {| makedirs := fun _ => true;
     partition_pdf := fun _ _ => Some els;
     encode_image := encode_image W;
     summarize_image := summarize_image W;
     summarize_table := summarize_table W |}.

(** The contents of the units returned, none when the call raises. *)
Definition contents (r : list Call * Outcome (list Document)) : list string :=
  match snd r with
  | Returned docs => map page_content docs
  | Raised _ => []
  end.

(** The document cut at its titles and headers: the elements before the
    first one, then each title or header with the elements that follow
    it up to the next. *)
Fixpoint sections (els : list Element)
  : list Element * list (string * list Element) :=
  match els with
  | [] => ([], [])
  | el :: rest =>
      let (body, later) := sections rest in
      if is_title_or_header el then ([], (text el, body) :: later)
      else (el :: body, later)
  end.

(** The unit of one section: none without narrative text, else the
    title, a blank line and the stripped text of its narrative
    elements, one per line. *)
Definition section_unit (section : string * list Element) : list string :=
  let (title, body) := section in
  if existsb is_narrative body
  then [(title ++ NL ++ NL ++ strip (narrative_block body))%string]
  else [].

(** Whether a unit was emitted or text is pending. *)
Definition started (st : LoopState) : bool :=
  match documents st with
  | [] => truthy (current_text_block st)
  | _ :: _ => true
  end.

(** One when text is pending in the block, else zero. *)
Definition pending (st : LoopState) : nat :=
  if truthy (current_text_block st) then 1 else 0.

End ChunkerViews.

(** ** Dictionaries with string keys *)

(** A Python [dict] whose keys are strings ([os.environ],
    [st.session_state]), as the list of its items in insertion order. *)
Module Dict.

Section Dict.

Context {V : Type}.

Definition dict : Type := list (string * V).

(** [d.get(k)], [None] when the key is absent. *)
Fixpoint get (d : dict) (k : string) : option V :=
  match d with
  | [] => None
  | (k', v) :: rest => if String.eqb k k' then Some v else get rest k
  end.

(** [k in d] *)
Definition contains (d : dict) (k : string) : bool :=
  match get d k with
  | Some _ => true
  | None => false
  end.

(** [d[k] = v]: the value of a present key is replaced in place, a new
    key is added at the end. *)
Fixpoint set (d : dict) (k : string) (v : V) : dict :=
  match d with
  | [] => [(k, v)]
  | (k', v') :: rest =>
      if String.eqb k k' then (k, v) :: rest else (k', v') :: set rest k v
  end.

(** [del d[k]] on a key that is present. *)
Fixpoint del (d : dict) (k : string) : dict :=
  match d with
  | [] => []
  | (k', v') :: rest =>
      if String.eqb k k' then del rest k else (k', v') :: del rest k
  end.

End Dict.

Arguments dict V : clear implicits.

End Dict.

(** ** [src/src/config.py] *)

Module Config.

Import Py.

Inductive Level : Type := INFO | ERROR.

Definition LogRecord : Type := (Level * string)%type.

(** [os.environ], once [load_dotenv()] has run. *)
Definition Environ : Type := Dict.dict string.

(** [os.getenv(name)] *)
Definition getenv (environ : Environ) (name : string) : option string :=
  Dict.get environ name.

(** Each function gives the records it logs and its outcome. *)
Definition get_openai_api_key (environ : Environ)
  : list LogRecord * Outcome string :=
  let not_found :=
    ([(ERROR, "OPENAI_API_KEY not found in environment variables.")],
     Raised (ValueError "OPENAI_API_KEY not found in environment variables.")) in
  match getenv environ "OPENAI_API_KEY" with
  | Some key => if negb (truthy key) then not_found else ([], Returned key)
  | None => not_found
  end.

Definition get_groq_api_key (environ : Environ)
  : list LogRecord * Outcome string :=
  let not_found :=
    ([(ERROR, "GROQ_API_KEY not found in environment variables.")],
     Raised (ValueError "GROQ_API_KEY not found in environment variables.")) in
  match getenv environ "GROQ_API_KEY" with
  | Some key => if negb (truthy key) then not_found else ([], Returned key)
  | None => not_found
  end.

(** [load_hf_token]: the records logged and the environment it leaves. *)
Definition load_hf_token (environ : Environ) : list LogRecord * Environ :=
  let not_found :=
    ([(INFO, "Hugging Face token not found in .env file. Proceeding without it.")],
     environ) in
  match getenv environ "HUGGING_FACE_HUB_TOKEN" with
  | Some token =>
      if truthy token then
        ([(INFO, "Hugging Face token loaded from .env file.")],
         Dict.set environ "HUGGING_FACE_HUB_TOKEN" token)
      else not_found
  | None => not_found
  end.

Definition get_redis_url (environ : Environ)
  : list LogRecord * Outcome string :=
  let not_found :=
    ([(ERROR, "REDIS_URL not found in environment variables.")],
     Raised (ValueError "REDIS_URL not found in environment variables.")) in
  match getenv environ "REDIS_URL" with
  | Some url => if negb (truthy url) then not_found else ([], Returned url)
  | None => not_found
  end.

End Config.

(** ** [src/src/chat_logic.py] *)

Module ChatLogic.

Import Py.

(** [ChatGroq(temperature=..., groq_api_key=..., model_name=...)]: the
    client is a record; building it calls no service. *)
Record ChatGroq : Type := mkChatGroq {
  temperature : Z;
  groq_api_key : string;
  model_name : string
}.

(** The items of [ChatPromptTemplate.from_messages]. *)
Inductive MessageTemplate : Type :=
| Message (role template : string)
| MessagesPlaceholder (variable_name : string).

Definition ChatPromptTemplate : Type := list MessageTemplate.

(** [create_history_aware_retriever(llm, retriever, prompt)] *)
Record HistoryAwareRetriever : Type := mkHistoryAwareRetriever {
  har_llm : ChatGroq;
  har_retriever : VectorStore.EnsembleRetriever;
  har_prompt : ChatPromptTemplate
}.

(** [create_stuff_documents_chain(llm, prompt)] *)
Record StuffDocumentsChain : Type := mkStuffDocumentsChain {
  sdc_llm : ChatGroq;
  sdc_prompt : ChatPromptTemplate
}.

(** [create_retrieval_chain(retriever, combine_docs_chain)] *)
Record RetrievalChain : Type := mkRetrievalChain {
  chain_retriever : HistoryAwareRetriever;
  combine_docs_chain : StuffDocumentsChain
}.

Definition contextualize_q_system_prompt : string :=
  "Given a chat history and the latest user question "
  ++ "which might reference context in the chat history, "
  ++ "formulate a standalone question which can be understood "
  ++ "without the chat history. Do NOT answer the question, "
  ++ "just reformulate it if needed and otherwise return it as is.".

(** [get_rag_chain].  The text of the literal [qa_system_prompt] (lines
    46 to 180 of the file) is the parameter of the same name. *)
Definition get_rag_chain (qa_system_prompt : string)
  (environ : Config.Environ) (retriever : VectorStore.EnsembleRetriever)
  : list Config.LogRecord * Outcome RetrievalChain :=
  match Config.get_groq_api_key environ with
  | (log, Raised (ValueError e)) =>
      (log ++ [(Config.ERROR, ("Failed to initialize Groq LLM: " ++ e)%string)],
       Raised (ValueError e))
  | (log, Raised exn) => (log, Raised exn)
  | (log, Returned groq_api_key) =>
      let llm := mkChatGroq 0 groq_api_key "llama-3.3-70b-versatile" in
      let log := log ++ [(Config.INFO, "Groq LLM initialized successfully.")] in
      let contextualize_q_prompt :=
        [Message "system" contextualize_q_system_prompt;
         MessagesPlaceholder "chat_history";
         Message "human" "{input}"] in
      let history_aware_retriever :=
        mkHistoryAwareRetriever llm retriever contextualize_q_prompt in
      let qa_prompt :=
        [Message "system" qa_system_prompt;
         MessagesPlaceholder "chat_history";
         Message "human" "{input}"] in
      let question_answer_chain := mkStuffDocumentsChain llm qa_prompt in
      let rag_chain :=
        mkRetrievalChain history_aware_retriever question_answer_chain in
      (log ++ [(Config.INFO, "Conversational RAG chain created successfully.")],
       Returned rag_chain)
  end.

End ChatLogic.

(** ** [src/src/chat_history.py] *)

Module ChatHistory.

Import Py.

(** The values kept in [st.session_state]. *)
Inductive Value : Type :=
| VNone
| VStr (s : string)
| VChain (c : ChatLogic.RetrievalChain).

Definition SessionState : Type := Dict.dict Value.

(** [RedisChatMessageHistory(session_id, redis_url)]: the handle of the
    history of one session. *)
Record RedisChatMessageHistory : Type := mkRedisChatMessageHistory {
  session_id : Value;
  redis_url : string
}.

(** [get_session_id]: the identifier and the session state it leaves.
    [uuid4] is what [str(uuid.uuid4())] would give in this call. *)
Definition get_session_id (uuid4 : string) (session_state : SessionState)
  : Value * SessionState :=
  let session_state :=
    if negb (Dict.contains session_state "session_id")
    then Dict.set session_state "session_id" (VStr uuid4)
    else session_state in
  match Dict.get session_state "session_id" with
  | Some v => (v, session_state)
  | None => (VNone, session_state)
  end.

(** [get_message_history]: the outcome and the session state it leaves. *)
Definition get_message_history (uuid4 : string) (environ : Config.Environ)
  (session_state : SessionState)
  : Outcome RedisChatMessageHistory * SessionState :=
  let (session_id, session_state) := get_session_id uuid4 session_state in
  match snd (Config.get_redis_url environ) with
  | Raised exn => (Raised exn, session_state)
  | Returned redis_url =>
      (Returned (mkRedisChatMessageHistory session_id redis_url),
       session_state)
  end.

End ChatHistory.

(** ** [src/app.py]: [process_pdf] *)

Module App.

Import Py ChatHistory.

(** The uploaded file: its name and its bytes. *)
Record UploadedFile : Type := mkUploadedFile {
  name : string;
  getvalue : string
}.

(** What the page shows, in order.  [PlaceholderCode] is the log file
    shown in the placeholder. *)
Inductive UI : Type :=
| Expander (label : string)
| PlaceholderInfo (msg : string)
| PlaceholderCode
| PlaceholderError (msg : string)
| Spinner (msg : string)
| StError (msg : string)
| StSuccess (msg : string).

(** The exceptions met inside [process_pdf]. *)
Inductive Exc : Type :=
| Inner (exn : Exn)
| FileNotFoundError
| OSError.

(** What the outside answers: the environment, the name of the temporary
    file once the upload is written to it ([None] when that raises),
    the temporary directory, the worlds of the chunker and of the
    retriever builder, whether the log file can be read, and which paths
    exist when the function ends. *)
Record World : Type := mkWorld {
  environ : Config.Environ;
  named_temporary_file : string -> option string;
  gettempdir : string;
  chunker : DataProcessing.World;
  store : VectorStore.World;
  log_file_readable : bool;
  path_exists : string -> bool
}.

(** The state a run of [process_pdf] acts on: the session state, the
    page, and the two locals that [locals()] is asked about. *)
Record Frame : Type := mkFrame {
  session_state : SessionState;
  ui : list UI;
  tmp_file_path : option string;
  log_placeholder : bool
}.

(** Where a statement of the [try] block leaves the control. *)
Inductive Flow (A : Type) : Type :=
| Normal (a : A) (f : Frame)
| Returns (f : Frame)
| Raises (exc : Exc) (f : Frame).

Arguments Normal {A} a f.
Arguments Returns {A} f.
Arguments Raises {A} exc f.

Definition Try (A : Type) : Type := Frame -> Flow A.

Definition ret {A : Type} (a : A) : Try A := fun f => Normal a f.

Definition bind {A B : Type} (m : Try A) (k : A -> Try B) : Try B :=
  fun f =>
    match m f with
    | Normal a f' => k a f'
    | Returns f' => Returns f'
    | Raises exc f' => Raises exc f'
    end.

Notation "x <- m ;; k" := (bind m (fun x => k))
  (at level 61, m at next level, right associativity).
Notation "m ;; k" := (bind m (fun _ => k))
  (at level 61, right associativity).

(** A call of one of the modelled functions. *)
Definition call {A : Type} (o : Outcome A) : Try A :=
  fun f =>
    match o with
    | Returned a => Normal a f
    | Raised exn => Raises (Inner exn) f
    end.

(** [return] *)
Definition return_ {A : Type} : Try A := fun f => Returns f.

Definition show (u : UI) : Try unit :=
  fun f =>
    Normal tt (mkFrame (session_state f) (ui f ++ [u]) (tmp_file_path f)
                       (log_placeholder f)).

(** [with tempfile.NamedTemporaryFile(delete=False, suffix=".pdf") as
    tmp_file: ...] (lines 57-59): writes the upload and binds
    [tmp_file_path]. *)
Definition write_temporary_file (W : World) (content : string) : Try string :=
  fun f =>
    match named_temporary_file W content with
    | Some path =>
        Normal path (mkFrame (session_state f) (ui f) (Some path)
                             (log_placeholder f))
    | None => Raises OSError f
    end.

(** [log_placeholder = log_container.empty()] *)
Definition bind_log_placeholder : Try unit :=
  fun f => Normal tt (mkFrame (session_state f) (ui f) (tmp_file_path f) true).

(** [with open(get_log_file_path(), "r") as f:
    log_placeholder.code(f.read(), language="log")] *)
Definition show_log_file (W : World) : Try unit :=
  if log_file_readable W then show PlaceholderCode
  else fun f => Raises FileNotFoundError f.

(** [st.session_state.<key> = v] *)
Definition assign (key : string) (v : Value) : Try unit :=
  fun f =>
    Normal tt (mkFrame (Dict.set (session_state f) key v) (ui f)
                       (tmp_file_path f) (log_placeholder f)).

(** [if "session_id" in st.session_state: del st.session_state["session_id"]] *)
Definition reset_session_id : Try unit :=
  fun f =>
    Normal tt
      (mkFrame (if Dict.contains (session_state f) "session_id"
                then Dict.del (session_state f) "session_id"
                else session_state f)
               (ui f) (tmp_file_path f) (log_placeholder f)).

Section ProcessPdf.

Variable W : World.
Variable qa_system_prompt : string.
Variable uploaded_file : UploadedFile.
Variable use_enhanced : bool.

(** The [try] block of [process_pdf] (lines 53-107).  What [logger]
    records is left out. *)
Definition try_block : Try unit :=
  openai_key <- call (snd (Config.get_openai_api_key (environ W))) ;;
  tmp_file_path <- write_temporary_file W (getvalue uploaded_file) ;;
  show (Expander "Processing Logs") ;;
  bind_log_placeholder ;;
  show (PlaceholderInfo "Starting processing...") ;;
  show (Spinner "Processing PDF... See logs below for details.") ;;
  documents <-
    call (snd (DataProcessing.partition_and_chunk (chunker W) tmp_file_path
                 use_enhanced (Some openai_key) (gettempdir W))) ;;
  show_log_file W ;;
  match documents with
  | [] =>
      show (StError "Could not extract any content from the PDF. Please check the logs.") ;;
      return_
  | _ :: _ =>
      retriever <-
        call (snd (VectorStore.create_retriever (store W) documents
                     (Some openai_key) VectorStore.default_k)) ;;
      show_log_file W ;;
      match retriever with
      | None =>
          show (StError "Failed to create the document retriever. Check logs for details.") ;;
          return_
      | Some retriever =>
          rag_chain <-
            call (snd (ChatLogic.get_rag_chain qa_system_prompt (environ W)
                         retriever)) ;;
          assign "rag_chain" (VChain rag_chain) ;;
          assign "processed_file" (VStr (name uploaded_file)) ;;
          reset_session_id ;;
          show (StSuccess "Your document has been processed! You can now ask questions.") ;;
          show_log_file W
      end
  end.

(** The [except Exception] clause (lines 109-117). *)
Definition except_clause (f : Frame) : Frame :=
  let shown :=
    ui f ++ [StError "An error occurred during processing. Please check the logs for details."] in
  mkFrame (session_state f)
          (if log_placeholder f then
             if log_file_readable W then shown ++ [PlaceholderCode]
             else shown ++ [PlaceholderError "Log file not found."]
           else shown)
          (tmp_file_path f) (log_placeholder f).

(** The [finally] clause (lines 118-120): the paths given to [os.remove]. *)
Definition finally_clause (f : Frame) : list string :=
  match tmp_file_path f with
  | Some path => if path_exists W path then [path] else []
  | None => []
  end.

(** What a call of [process_pdf] leaves. *)
Record Result : Type := mkResult {
  session_after : SessionState;
  shown : list UI;
  removed : list string
}.

Definition process_pdf (session_state0 : SessionState) : Result :=
  let f :=
    match try_block (mkFrame session_state0 [] None false) with
    | Normal _ f => f
    | Returns f => f
    | Raises _ f => except_clause f
    end in
  mkResult (session_state f) (ui f) (finally_clause f).

End ProcessPdf.

(** The message of success (line 104). *)
Definition success : UI :=
  StSuccess "Your document has been processed! You can now ask questions.".

(** A world with both keys, a Redis URL and a readable PDF, and the text
    standing for the answering prompt in examples. *)
Definition ready_environ : Config.Environ :=
  [("OPENAI_API_KEY", "sk-test"); ("GROQ_API_KEY", "gsk-test");
   ("REDIS_URL", "redis://localhost:6379")].

Definition ready_world : World :=
  {| environ := ready_environ;
     named_temporary_file := fun _ => Some "/tmp/tmpab12cd.pdf";
     gettempdir := "/tmp";
     chunker := DataProcessing.offline_world DataProcessing.two_sections;
     store := VectorStore.embedding_world;
     log_file_readable := true;
     path_exists := fun _ => true |}.

Definition sample_prompt : string := "CONTEXT: {context}".

Definition sample_upload : UploadedFile := mkUploadedFile "report.pdf" "%PDF-1.7".

End App.

(** ** [src/app.py]: the chat page *)

Module Chat.

Import Py.

(** The messages of the chat history. *)
Inductive BaseMessage : Type :=
| HumanMessage (content : string)
| AIMessage (content : string).

(** [message.type] and [message.content] *)
Definition message_type (m : BaseMessage) : string :=
  match m with
  | HumanMessage _ => "human"
  | AIMessage _ => "ai"
  end.

Definition message_content (m : BaseMessage) : string :=
  match m with
  | HumanMessage c => c
  | AIMessage c => c
  end.

(** The argument of [rag_chain.invoke]. *)
Record ChainInput : Type := mkChainInput {
  input : string;
  chat_history : list BaseMessage
}.

(** What [rag_chain.invoke(...)["answer"]] gives: the answer, or the
    text of the exception raised. *)
Definition Chain : Type := ChainInput -> string + string.

(** What the page shows, in order. *)
Inductive Shown : Type :=
| StInfo (msg : string)
| ChatMessage (role content : string)
| StError (msg : string).

(** One run of the chat page (lines 141-179) over the messages stored
    for the session: the messages stored afterwards, and the page.
    [prompt] is what [st.chat_input] returns in this run. *)
Definition chat_page (rag_chain : option Chain) (messages : list BaseMessage)
  (prompt : option string) : list BaseMessage * list Shown :=
  match rag_chain with
  | None =>
      (messages,
       [StInfo "Please upload and process a PDF using the sidebar to begin."])
  | Some rag_chain =>
      let page :=
        map (fun message =>
               ChatMessage (message_type message) (message_content message))
            messages in
      match prompt with
      | None => (messages, page)
      | Some prompt =>
          if negb (truthy prompt) then (messages, page)
          else
            let messages := messages ++ [HumanMessage prompt] in
            let page := page ++ [ChatMessage "user" prompt] in
            match rag_chain (mkChainInput prompt messages) with
            | inl response =>
                (messages ++ [AIMessage response],
                 page ++ [ChatMessage "assistant" response])
            | inr e =>
                (messages,
                 page ++ [StError ("An error occurred while getting the answer: "
                                   ++ e)%string])
            end
      end
  end.

(** The messages stored after the runs of the page that the prompts
    [prompts] cause, one run for each. *)
Definition chat_session (rag_chain : option Chain)
  (messages : list BaseMessage) (prompts : list (option string))
  : list BaseMessage :=
  fold_left (fun messages prompt => fst (chat_page rag_chain messages prompt))
            prompts messages.

(** Every answer directly follows a question. *)
Fixpoint answers_follow_questions (messages : list BaseMessage) : bool :=
  match messages with
  | [] => true
  | AIMessage _ :: _ => false
  | HumanMessage _ :: AIMessage _ :: rest => answers_follow_questions rest
  | HumanMessage _ :: rest => answers_follow_questions rest
  end.

(** The questions among the messages, and the prompts that are
    questions. *)
Definition questions (messages : list BaseMessage) : list string :=
  flat_map (fun m => match m with HumanMessage c => [c] | AIMessage _ => [] end)
           messages.

Definition submitted (prompts : list (option string)) : list string :=
  flat_map (fun p => match p with
                     | Some q => if truthy q then [q] else []
                     | None => []
                     end) prompts.

(** A chain that answers by the number of messages it is given, and
    fails on the question ["?"]. *)
Definition counting_chain : Chain :=
  fun i =>
    if String.eqb (input i) "?" then inr "Error code: 429"
    else inl (str_of_nat (length (chat_history i))).

End Chat.

(** ** Properties of the chunker *)

Module ChunkerFacts.

Import Py DataProcessing.

Section Loop.

Variable W : World.
Variable pdf_path : string.
Variable use_enhanced_processing : bool.
Variable openai_api_key : option string.

Local Abbreviation body :=
  (loop_body W pdf_path use_enhanced_processing openai_api_key).
Local Abbreviation run :=
  (loop W pdf_path use_enhanced_processing openai_api_key).
Local Abbreviation emitted :=
  (emitted W pdf_path use_enhanced_processing openai_api_key).

Lemma loop_app (a b : list Element) :
  forall i st, run i (a ++ b) st = run (i + length a) b (run i a st).
Proof.
  induction a as [|el a IH]; intros i st; simpl.
  - now rewrite Nat.add_0_r.
  - rewrite IH. f_equal. lia.
Qed.

Lemma loop_snoc (a : list Element) (el : Element) (i : nat) (st : LoopState) :
  run i (a ++ [el]) st = body (run i a st) (i + length a) el.
Proof. now rewrite loop_app. Qed.

(** Every iteration binds [metadata] to the record of its element. *)
Lemma body_metadata (st : LoopState) (i : nat) (el : Element) :
  metadata (body st i el) = Some (element_metadata pdf_path i el).
Proof.
  unfold loop_body.
  destruct (is_title_or_header el); [reflexivity|].
  destruct (is_narrative el); [reflexivity|].
  destruct use_enhanced_processing; [|reflexivity].
  destruct (el_class el); try reflexivity.
  destruct (truthy_opt _); reflexivity.
Qed.

Lemma body_documents (st : LoopState) (i : nat) (el : Element) :
  documents (body st i el) = documents st ++ emitted st i el.
Proof.
  unfold loop_body, emitted.
  destruct (is_title_or_header el); [reflexivity|].
  destruct (is_narrative el); [now rewrite app_nil_r|].
  destruct use_enhanced_processing; [|now rewrite app_nil_r].
  destruct (el_class el); simpl; rewrite ?app_nil_r, ?app_assoc; try reflexivity.
  destruct (truthy_opt _); simpl; rewrite ?app_nil_r, ?app_assoc; reflexivity.
Qed.

Lemma emitted_metadata (st : LoopState) (i : nat) (el : Element) :
  Forall (fun d => doc_metadata d = element_metadata pdf_path i el)
         (emitted st i el).
Proof.
  assert (Hf : Forall (fun d => doc_metadata d = element_metadata pdf_path i el)
                      (flush st (element_metadata pdf_path i el))).
  { unfold flush. destruct (truthy _); repeat constructor. }
  assert (Hi : forall t, doc_metadata (image_document W openai_api_key t el
                  (element_metadata pdf_path i el)) = element_metadata pdf_path i el).
  { intros t. unfold image_document. now destruct (image_summary _ _ _). }
  assert (Ht : forall t, doc_metadata (table_document W openai_api_key t el
                  (element_metadata pdf_path i el)) = element_metadata pdf_path i el).
  { intros t. unfold table_document. now destruct (table_summary _ _ _). }
  unfold emitted.
  destruct (is_title_or_header el); [exact Hf|].
  destruct (is_narrative el); [constructor|].
  destruct use_enhanced_processing; [|constructor].
  apply Forall_app; split; [exact Hf|].
  destruct (el_class el); try constructor; auto.
  destruct (truthy_opt _); repeat constructor; auto.
Qed.

(** The units already emitted are never touched again. *)
Lemma loop_documents (els : list Element) :
  forall i st, exists more, documents (run i els st) = documents st ++ more.
Proof.
  induction els as [|el els IH]; intros i st; simpl.
  - exists []. now rewrite app_nil_r.
  - destruct (IH (S i) (body st i el)) as [more Hm].
    rewrite Hm, body_documents, <- app_assoc. eauto.
Qed.

Lemma loop_metadata (els : list Element) (el : Element) (i : nat) (st : LoopState) :
  metadata (run i (els ++ [el]) st)
  = Some (element_metadata pdf_path (i + length els) el).
Proof. rewrite loop_snoc. apply body_metadata. Qed.

(** After the loop, [metadata] is unbound only if no element was seen,
    and then the text block is still the initial one. *)
Lemma loop_bound (els : list Element) (i : nat) (st : LoopState) :
  els = [] \/ exists md, metadata (run i els st) = Some md.
Proof.
  destruct els as [|e0 els']; [now left|right].
  destruct (@exists_last _ (e0 :: els')) as [a [el Heq]]; [discriminate|].
  rewrite Heq, loop_metadata. eauto.
Qed.

End Loop.

(** When the credential check passes and the layout extraction yields
    [els], the function runs the loop over [els] and finishes. *)
Lemma partition_and_chunk_reads W pdf_path e key temp_dir els :
  reads W pdf_path temp_dir els ->
  e = false \/ truthy_opt key = true ->
  partition_and_chunk W pdf_path e key temp_dir
  = (calls (state_after W pdf_path e key temp_dir els),
     finish (state_after W pdf_path e key temp_dir els)).
Proof.
  intros [Hmk Hpart] Hcred.
  unfold partition_and_chunk, state_after.
  assert (Hc : e && negb (truthy_opt key) = false)
    by (destruct Hcred as [-> | ->]; [reflexivity | now rewrite andb_false_r]).
  now rewrite Hc, Hmk, Hpart.
Qed.

(** Line 47: enhanced processing without a key raises before anything
    else is done. *)
Lemma credential_check_raises W pdf_path key temp_dir :
  truthy_opt key = false ->
  partition_and_chunk W pdf_path true key temp_dir
  = ([], Raised (ValueError "OpenAI API key is required for enhanced processing.")).
Proof.
  intros Hk. unfold partition_and_chunk. now rewrite Hk.
Qed.

(** The final flush never reads an unbound [metadata]. *)
Lemma finish_returns W pdf_path e key temp_dir els :
  exists docs,
    finish (state_after W pdf_path e key temp_dir els) = Returned docs.
Proof.
  unfold finish, state_after.
  destruct (loop_bound W pdf_path e key els 0
              (initial_state [MakeDirs (path_join temp_dir "images");
                              PartitionPdf pdf_path (path_join temp_dir "images")]))
    as [-> | [md ->]].
  - simpl. eauto.
  - destruct (truthy _); eauto.
Qed.

Lemma state_after_snoc W pdf_path e key temp_dir pre el :
  state_after W pdf_path e key temp_dir (pre ++ [el])
  = loop_body W pdf_path e key (state_after W pdf_path e key temp_dir pre)
              (length pre) el.
Proof. unfold state_after. now rewrite loop_snoc. Qed.

(** The returned list extends the units emitted on any prefix of the
    input. *)
Lemma result_extends W pdf_path e key temp_dir pre post :
  exists docs after,
    finish (state_after W pdf_path e key temp_dir (pre ++ post)) = Returned docs
    /\ docs = documents (state_after W pdf_path e key temp_dir pre) ++ after.
Proof.
  destruct (finish_returns W pdf_path e key temp_dir (pre ++ post))
    as [docs Hd].
  exists docs. rewrite Hd.
  unfold state_after in *. rewrite loop_app in Hd.
  set (st := loop W pdf_path e key 0 pre _) in *.
  destruct (loop_documents W pdf_path e key post (0 + length pre) st)
    as [more Hm].
  unfold finish in Hd. rewrite Hm in Hd.
  destruct (truthy _).
  - destruct (metadata _); [|discriminate].
    injection Hd as <-. rewrite <- app_assoc. eauto.
  - injection Hd as <-. eauto.
Qed.

Lemma string_app_assoc (a b c : string) :
  ((a ++ b) ++ c = a ++ (b ++ c))%string.
Proof. induction a as [|x a IH]; simpl; [reflexivity | now rewrite IH]. Qed.

Lemma string_app_empty_r (a : string) : (a ++ "" = a)%string.
Proof. induction a as [|x a IH]; simpl; [reflexivity | now rewrite IH]. Qed.

Lemma truthy_narrative_block (els : list Element) :
  truthy (narrative_block els) = existsb is_narrative els.
Proof.
  induction els as [|el els IH]; simpl; [reflexivity|].
  destruct (is_narrative el); simpl; [|assumption].
  now destruct (text el).
Qed.


(** One iteration in two worlds, under two keys: no element reaches a
    call of a model, so the variables come out the same. *)
Lemma body_same_variables W1 W2 pdf_path e k1 k2 s1 s2 i el :
  same_variables s1 s2 ->
  same_variables (loop_body W1 pdf_path e k1 s1 i el)
                 (loop_body W2 pdf_path e k2 s2 i el).
Proof.
  intros (Hd & Ht & Hb & Hm).
  unfold same_variables, loop_body, flush, is_title_or_header, is_narrative.
  rewrite Hd, Ht, Hb.
  destruct (el_class el), e; simpl; auto.
Qed.

Lemma loop_same_variables W1 W2 pdf_path e k1 k2 (els : list Element) :
  forall i s1 s2,
    same_variables s1 s2 ->
    same_variables (loop W1 pdf_path e k1 i els s1)
                   (loop W2 pdf_path e k2 i els s2).
Proof.
  induction els as [|el els IH]; intros i s1 s2 H12; simpl; [assumption|].
  apply IH. now apply body_same_variables.
Qed.

Lemma finish_same_variables (s1 s2 : LoopState) :
  same_variables s1 s2 -> finish s1 = finish s2.
Proof.
  intros (Hd & Ht & Hb & Hm). unfold finish. now rewrite Hd, Ht, Hb, Hm.
Qed.

Lemma sorted_snoc_bound (l : list nat) (x : nat) :
  Sorted le l -> Forall (fun y => y <= x) l -> Sorted le (l ++ [x]).
Proof.
  induction 1 as [|a l Hs IH Hhd]; intros Hb; simpl.
  - repeat constructor.
  - inversion Hb; subst. constructor; [auto|].
    destruct l; simpl; constructor; [assumption|].
    inversion Hhd; assumption.
Qed.

Lemma sorted_app_const (l : list nat) (x : nat) (new : list nat) :
  Sorted le l -> Forall (fun y => y <= x) l -> Forall (eq x) new ->
  Sorted le (l ++ new) /\ Forall (fun y => y <= x) (l ++ new).
Proof.
  intros Hs Hb Hn. revert l Hs Hb.
  induction Hn as [|y new <- _ IH]; intros l Hs Hb.
  - now rewrite app_nil_r.
  - replace (l ++ x :: new) with ((l ++ [x]) ++ new)
      by now rewrite <- app_assoc.
    apply IH.
    + now apply sorted_snoc_bound.
    + apply Forall_app; split; [assumption|]. repeat constructor.
Qed.

(** The loop keeps the identifiers sorted and below the running index. *)
Lemma loop_sorted W pdf_path e key (els : list Element) :
  forall i st,
    Sorted le (map unit_id (documents st)) ->
    Forall (fun y => y < i) (map unit_id (documents st)) ->
    Sorted le (map unit_id (documents (loop W pdf_path e key i els st)))
    /\ Forall (fun y => y < i + length els)
              (map unit_id (documents (loop W pdf_path e key i els st))).
Proof.
  induction els as [|el els IH]; intros i st Hs Hb; simpl.
  - rewrite Nat.add_0_r. auto.
  - replace (i + S (length els)) with (S i + length els) by lia.
    destruct (sorted_app_const (map unit_id (documents st)) i
                (map unit_id (emitted W pdf_path e key st i el)) Hs)
      as [Hs' Hb'].
    { eapply Forall_impl; [|exact Hb]. simpl. intros; lia. }
    { apply Forall_map.
      eapply Forall_impl; [|apply emitted_metadata].
      intros d Hd. unfold unit_id. now rewrite Hd. }
    apply IH; rewrite body_documents, map_app; [assumption|].
    eapply Forall_impl; [|exact Hb']. simpl. intros; lia.
Qed.

Lemma narrative_block_app (a b : list Element) :
  narrative_block (a ++ b)
  = (narrative_block a ++ narrative_block b)%string.
Proof.
  induction a as [|el a IH]; simpl; [reflexivity|].
  destruct (is_narrative el); [|assumption].
  now rewrite IH, !string_app_assoc.
Qed.

Lemma not_truthy_empty (s : string) : truthy s = false -> s = "".
Proof. destruct s; [reflexivity | discriminate]. Qed.

(** What is flushed is the text of the run of elements met since the
    last flush, and it is flushed only when not empty. *)
Lemma flush_flushed (els : list Element) (st : LoopState) (md : Metadata)
  (before body after : list Element) :
  els = before ++ body ++ after ->
  current_text_block st = narrative_block body ->
  Forall (fun d => flushed_unit els d \/ bracketed_unit d) (flush st md).
Proof.
  intros Hels Hb. unfold flush.
  destruct (truthy (current_text_block st)) eqn:Ht; constructor;
    [|constructor].
  left. exists (current_title st), before, body, after.
  split; [assumption|].
  rewrite Hb, truthy_narrative_block in Ht.
  split; [assumption|]. simpl. now rewrite Hb.
Qed.

Lemma body_flushed W pdf_path e key (els : list Element) st i
  (prefix : list Element) (el : Element) (rest : list Element) :
  els = prefix ++ el :: rest ->
  (exists before body,
      prefix = before ++ body
      /\ current_text_block st = narrative_block body) ->
  Forall (fun d => flushed_unit els d \/ bracketed_unit d)
         (emitted W pdf_path e key st i el)
  /\ exists before body,
       prefix ++ [el] = before ++ body
       /\ current_text_block (loop_body W pdf_path e key st i el)
          = narrative_block body.
Proof.
  intros Hels (before & body & Hp & Hb).
  assert (Hf : forall md,
             Forall (fun d => flushed_unit els d \/ bracketed_unit d)
                    (flush st md)).
  { intros md. apply (flush_flushed els st md before body (el :: rest));
      [|assumption].
    now rewrite Hels, Hp, <- app_assoc. }
  assert (Hreset : (if truthy (current_text_block st) then ""
                    else current_text_block st) = "").
  { destruct (truthy (current_text_block st)) eqn:Ht; [reflexivity|].
    now apply not_truthy_empty. }
  unfold emitted, loop_body.
  destruct (is_title_or_header el) eqn:Hti.
  { split; [apply Hf|]. exists (prefix ++ [el]), [].
    now rewrite app_nil_r. }
  destruct (is_narrative el) eqn:Hn.
  { split; [constructor|]. exists before, (body ++ [el]). simpl.
    split; [now rewrite Hp, <- app_assoc|].
    rewrite narrative_block_app, Hb. simpl. rewrite Hn.
    reflexivity. }
  destruct e.
  - unfold is_title_or_header, is_narrative in Hti, Hn.
    destruct (el_class el); try discriminate.
    rewrite app_nil_r. split; [apply Hf|].
    exists (prefix ++ [el]), []. rewrite app_nil_r. simpl.
    now rewrite Hreset.
  - split; [constructor|]. exists before, (body ++ [el]). simpl.
    split; [now rewrite Hp, <- app_assoc|].
    rewrite narrative_block_app, Hb. simpl. rewrite Hn.
    now rewrite string_app_empty_r.
Qed.

Lemma loop_flushed W pdf_path e key (els rest : list Element) :
  forall i prefix st,
    els = prefix ++ rest ->
    (exists before body,
        prefix = before ++ body
        /\ current_text_block st = narrative_block body) ->
    Forall (fun d => flushed_unit els d \/ bracketed_unit d) (documents st) ->
    Forall (fun d => flushed_unit els d \/ bracketed_unit d)
           (documents (loop W pdf_path e key i rest st))
    /\ exists before body,
         els = before ++ body
         /\ current_text_block (loop W pdf_path e key i rest st)
            = narrative_block body.
Proof.
  induction rest as [|el rest IH]; intros i prefix st Hels Hinv Hd; simpl.
  - rewrite app_nil_r in Hels. subst prefix. auto.
  - destruct (body_flushed W pdf_path e key els st i prefix el rest Hels Hinv)
      as [He Hinv'].
    apply (IH (S i) (prefix ++ [el])).
    + now rewrite <- app_assoc.
    + assumption.
    + rewrite body_documents. apply Forall_app. auto.
Qed.

Lemma flushed_unit_nonempty (els : list Element) (d : Document) :
  flushed_unit els d -> page_content d <> "".
Proof.
  intros (title & before & body & after & _ & _ & ->).
  destruct title; discriminate.
Qed.

(** With an empty block nothing is flushed. *)
Lemma emitted_on_empty_block W pdf_path e key st i el :
  current_text_block st = "" ->
  Forall bracketed_unit (emitted W pdf_path e key st i el).
Proof.
  intros Hb. unfold emitted, flush. rewrite Hb. simpl.
  destruct (is_title_or_header el); [constructor|].
  destruct (is_narrative el); [constructor|].
  destruct e; [|constructor].
  destruct (el_class el); try constructor; try constructor.
  - unfold image_document.
    destruct (image_summary _ _ _); eexists; left; reflexivity.
  - destruct (truthy_opt _); constructor; [|constructor].
    unfold table_document.
    destruct (table_summary _ _ _); eexists; right; reflexivity.
Qed.

Lemma bracketed_unit_nonempty (d : Document) :
  bracketed_unit d -> page_content d <> "".
Proof. intros [rest [-> | ->]]; discriminate. Qed.

End ChunkerFacts.

(** ** The chunker, as the specification describes it *)

Module ChunkerSpec.

Import Py DataProcessing ChunkerFacts.

(** C2: when enhanced processing is requested and no OpenAI API key is
    supplied ([None] or the empty string), [partition_and_chunk] raises
    its [ValueError] at once: whatever the PDF contains and whatever the
    outside would answer, the trace of calls is empty (no directory
    made, no element extracted or processed, no model called) and no
    unit is returned. *)
Theorem fail_fast_without_credential
  (W : World) (pdf_path temp_dir : string) (key : option string) :
  truthy_opt key = false ->
  partition_and_chunk W pdf_path true key temp_dir
  = ([], Raised (ValueError "OpenAI API key is required for enhanced processing.")).
Proof. apply credential_check_raises. Qed.

Lemma fail_fast_without_credential_witness :
  partition_and_chunk (online_world two_sections "ok") "report.pdf" true
                      (Some "") "temp_data"
  = ([], Raised (ValueError "OpenAI API key is required for enhanced processing.")).
Proof.
  apply (fail_fast_without_credential (online_world two_sections "ok")
           "report.pdf" "temp_data" (Some "")).
  reflexivity.
Defined.

(** C6: on the elements [Title("Intro"), NarrativeText("Hello world."),
    Title("Section 2"), NarrativeText("More text.")] without enhanced
    processing, the chunker returns exactly two units, whose contents
    are ["Intro\n\nHello world."] and ["Section 2\n\nMore text."],
    in this order. *)
Theorem scenario_two_sections
  (W : World) (pdf_path temp_dir : string) (key : option string) :
  reads W pdf_path temp_dir two_sections ->
  exists docs,
    snd (partition_and_chunk W pdf_path false key temp_dir) = Returned docs
    /\ map page_content docs
       = [("Intro" ++ NL ++ NL ++ "Hello world.")%string;
          ("Section 2" ++ NL ++ NL ++ "More text.")%string].
Proof.
  intros Hr.
  rewrite (partition_and_chunk_reads _ _ _ _ _ _ Hr) by now left.
  simpl. eexists. split; reflexivity.
Qed.

Lemma scenario_two_sections_witness :
  exists docs,
    snd (partition_and_chunk (offline_world two_sections) "report.pdf" false
                             None "temp_data") = Returned docs
    /\ map page_content docs
       = [("Intro" ++ NL ++ NL ++ "Hello world.")%string;
          ("Section 2" ++ NL ++ NL ++ "More text.")%string].
Proof.
  apply (scenario_two_sections (offline_world two_sections) "report.pdf"
           "temp_data" None).
  split; reflexivity.
Defined.

(** C9: the chunker preserves the order of the input.  Once the
    credential check has passed, it returns units whose [element_id]
    values, each the index of an element of the input, are
    non-decreasing along the output; on an empty sequence of elements
    it returns the empty list, and raises nothing. *)
Theorem chunker_preserves_order
  (W : World) (pdf_path temp_dir : string) (e : bool) (key : option string)
  (els : list Element) :
  reads W pdf_path temp_dir els ->
  e = false \/ truthy_opt key = true ->
  exists docs,
    snd (partition_and_chunk W pdf_path e key temp_dir) = Returned docs
    /\ Sorted le (map unit_id docs)
    /\ Forall (fun d => unit_id d < length els) docs
    /\ (els = [] -> docs = []).
Proof.
  intros Hr Hc.
  rewrite (partition_and_chunk_reads _ _ _ _ _ _ Hr Hc). simpl.
  unfold state_after.
  set (st0 := initial_state _).
  destruct els as [|e0 els'].
  - exists []. simpl. repeat split; constructor.
  - destruct (@exists_last _ (e0 :: els')) as [a [el Heq]]; [discriminate|].
    rewrite Heq.
    destruct (loop_sorted W pdf_path e key (a ++ [el]) 0 st0) as [Hs Hb];
      [constructor | constructor |].
    simpl in Hb. rewrite length_app in *. simpl in *.
    assert (Hne : a ++ [el] = [] -> forall docs : list Document, docs = [])
      by (intros H; destruct a; discriminate).
    unfold finish. rewrite loop_metadata.
    destruct (truthy _).
    + eexists. split; [reflexivity|].
      rewrite map_app. simpl. unfold unit_id at 2. simpl.
      split; [|split; [|auto]].
      * apply sorted_snoc_bound; [assumption|].
        eapply Forall_impl; [|exact Hb]. simpl. intros; lia.
      * apply Forall_app; split.
        -- now apply Forall_map in Hb.
        -- repeat constructor. unfold unit_id. simpl. lia.
    + eexists. split; [reflexivity|].
      split; [assumption|]. split; [|auto].
      now apply Forall_map in Hb.
Qed.

Lemma chunker_preserves_order_witness :
  exists docs,
    snd (partition_and_chunk (offline_world two_sections) "report.pdf" true
                             (Some "sk-test") "temp_data") = Returned docs
    /\ Sorted le (map unit_id docs)
    /\ Forall (fun d => unit_id d < length two_sections) docs
    /\ (two_sections = [] -> docs = []).
Proof.
  apply (chunker_preserves_order (offline_world two_sections) "report.pdf"
           "temp_data" true (Some "sk-test") two_sections).
  - split; reflexivity.
  - right. reflexivity.
Defined.

(** C7: every unit the chunker returns has a non-empty content, for
    every sequence of elements, flag and key, and an empty text block
    is never flushed.  A unit is either a title, a blank line and the
    stripped text gathered from a run of consecutive elements of the
    input of which one at least passes the test of line 79, or it
    starts with the bracketed prefix of an image or of a table.  Where
    an element is met while the block is empty, no text unit is emitted
    for it; and when the block is empty at the end, nothing is added.
    The function does return units once the credential check has
    passed. *)
Theorem emitted_content_nonempty
  (W : World) (pdf_path temp_dir : string) (e : bool) (key : option string)
  (els : list Element) :
  reads W pdf_path temp_dir els ->
  (e = false \/ truthy_opt key = true ->
   exists docs,
     snd (partition_and_chunk W pdf_path e key temp_dir) = Returned docs)
  /\ (forall docs,
        snd (partition_and_chunk W pdf_path e key temp_dir) = Returned docs ->
        Forall (fun d => page_content d <> ""
                         /\ (flushed_unit els d \/ bracketed_unit d)) docs
        /\ (forall pre el post,
              els = pre ++ el :: post ->
              current_text_block (state_after W pdf_path e key temp_dir pre)
              = "" ->
              exists new,
                documents (state_after W pdf_path e key temp_dir (pre ++ [el]))
                = documents (state_after W pdf_path e key temp_dir pre) ++ new
                /\ Forall bracketed_unit new)
        /\ (current_text_block (state_after W pdf_path e key temp_dir els)
            = "" ->
            docs = documents (state_after W pdf_path e key temp_dir els))).
Proof.
  intros Hr. split.
  - intros Hc. rewrite (partition_and_chunk_reads _ _ _ _ _ _ Hr Hc).
    apply finish_returns.
  - intros docs Hd.
    assert (Hc : e = false \/ truthy_opt key = true).
    { destruct e; [|now left]. destruct (truthy_opt key) eqn:Hk; [now right|].
      rewrite (credential_check_raises W _ _ _ Hk) in Hd. discriminate. }
    rewrite (partition_and_chunk_reads _ _ _ _ _ _ Hr Hc) in Hd. simpl in Hd.
    split; [|split].
    + assert (Hshape : Forall (fun d => flushed_unit els d \/ bracketed_unit d)
                              docs).
      { destruct (loop_flushed W pdf_path e key els els 0 []
                    (initial_state [MakeDirs (path_join temp_dir "images");
                                    PartitionPdf pdf_path
                                      (path_join temp_dir "images")])
                    eq_refl)
          as (Hl & before & body & Hels & Hb).
        { exists [], []. split; reflexivity. }
        { constructor. }
        unfold finish, state_after in Hd.
        destruct (truthy (current_text_block _)) eqn:Ht.
        - destruct (metadata _); [|discriminate].
          injection Hd as <-. apply Forall_app; split; [exact Hl|].
          constructor; [|constructor]. left.
          eexists _, before, body, []. rewrite app_nil_r.
          split; [exact Hels|].
          rewrite Hb, truthy_narrative_block in Ht.
          split; [exact Ht|]. simpl. now rewrite Hb.
        - injection Hd as <-. exact Hl. }
      eapply Forall_impl; [|exact Hshape].
      intros d [Ht | Hbk]; split; eauto using flushed_unit_nonempty,
        bracketed_unit_nonempty.
    + intros pre el post _ Hb.
      exists (emitted W pdf_path e key
                (state_after W pdf_path e key temp_dir pre) (length pre) el).
      split; [now rewrite state_after_snoc, body_documents|].
      now apply emitted_on_empty_block.
    + intros Hb. unfold finish in Hd. rewrite Hb in Hd. simpl in Hd.
      now injection Hd as <-.
Qed.

Lemma emitted_content_nonempty_witness :
  exists docs,
    snd (partition_and_chunk
           (offline_world [plain Title "A"; plain Title "B"; plain Text " ";
                           plain Header "C"])
           "report.pdf" false None "temp_data") = Returned docs
    /\ map page_content docs = [("B" ++ NL ++ NL)%string]
    /\ Forall (fun d => page_content d <> "") docs.
Proof.
  destruct (emitted_content_nonempty
              (offline_world [plain Title "A"; plain Title "B"; plain Text " ";
                              plain Header "C"])
              "report.pdf" "temp_data" false None
              [plain Title "A"; plain Title "B"; plain Text " ";
               plain Header "C"])
    as [Hret Hall].
  - split; reflexivity.
  - destruct (Hret (or_introl eq_refl)) as [docs Hd].
    exists docs. split; [exact Hd|].
    destruct (Hall docs Hd) as [Hne _].
    split.
    + simpl in Hd. injection Hd as <-. reflexivity.
    + eapply Forall_impl; [|exact Hne]. intros d [H _]. exact H.
Defined.

(** C4: a flushed text unit carries the metadata of the element that
    triggered the flush.  All the units emitted while the element of
    index [length pre] is processed carry the source, page number and
    index of that element; when that element triggers a flush and text
    is pending, the first of them is the pending text, gathered from
    earlier elements.  A flush at the end of the sequence carries the
    metadata of the last element. *)
Theorem flush_metadata_from_trigger
  (W : World) (pdf_path temp_dir : string) (e : bool) (key : option string)
  (els : list Element) :
  reads W pdf_path temp_dir els ->
  e = false \/ truthy_opt key = true ->
  exists docs,
    snd (partition_and_chunk W pdf_path e key temp_dir) = Returned docs
    /\ (forall pre el post, els = pre ++ el :: post ->
          let st := state_after W pdf_path e key temp_dir pre in
          let md := element_metadata pdf_path (length pre) el in
          exists new after,
            docs = documents st ++ new ++ after
            /\ documents (state_after W pdf_path e key temp_dir (pre ++ [el]))
               = documents st ++ new
            /\ Forall (fun d => doc_metadata d = md) new
            /\ (triggers_flush e el = true ->
                truthy (current_text_block st) = true ->
                exists rest,
                  new = text_document (current_title st)
                                      (current_text_block st) md :: rest))
    /\ (forall pre el, els = pre ++ [el] ->
          let st := state_after W pdf_path e key temp_dir els in
          truthy (current_text_block st) = true ->
          docs = documents st
                 ++ [text_document (current_title st) (current_text_block st)
                       (element_metadata pdf_path (length pre) el)]).
Proof.
  intros Hr Hc.
  rewrite (partition_and_chunk_reads _ _ _ _ _ _ Hr Hc). simpl.
  destruct (finish_returns W pdf_path e key temp_dir els) as [docs Hd].
  exists docs. split; [assumption|]. split.
  - intros pre el post Heq. cbv zeta.
    set (st := state_after W pdf_path e key temp_dir pre).
    set (md := element_metadata pdf_path (length pre) el).
    destruct (result_extends W pdf_path e key temp_dir (pre ++ [el]) post)
      as (docs' & after & Hd' & Hafter).
    rewrite <- app_assoc in Hd'. simpl in Hd'. rewrite <- Heq, Hd in Hd'.
    injection Hd' as <-.
    rewrite state_after_snoc, body_documents in Hafter.
    exists (emitted W pdf_path e key st (length pre) el), after.
    split; [now rewrite Hafter, <- app_assoc|].
    split; [now rewrite state_after_snoc, body_documents|].
    split; [apply emitted_metadata|].
    intros Ht Hb. unfold emitted, flush. fold st md. rewrite Hb.
    unfold triggers_flush in Ht.
    destruct (is_title_or_header el); [eauto|].
    destruct (is_narrative el); [discriminate|].
    destruct e; [|discriminate]. simpl. eauto.
  - intros pre el Heq. cbv zeta. intros Hb.
    unfold finish in Hd. rewrite Hb in Hd.
    assert (Hm : metadata (state_after W pdf_path e key temp_dir els)
                 = Some (element_metadata pdf_path (length pre) el))
      by (unfold state_after; now rewrite Heq, loop_metadata).
    rewrite Hm in Hd. now injection Hd as <-.
Qed.

Lemma flush_metadata_from_trigger_witness :
  exists docs,
    snd (partition_and_chunk (offline_world page_break_elements)
           "/data/report.pdf" false None "temp_data") = Returned docs
    /\ docs = [mkDocument (NL ++ NL ++ "First page.")
                          (mkMetadata "report.pdf" 2 1);
               mkDocument ("Second" ++ NL ++ NL ++ "item")
                          (mkMetadata "report.pdf" 1 2)].
Proof.
  destruct (flush_metadata_from_trigger (offline_world page_break_elements)
              "/data/report.pdf" "temp_data" false None page_break_elements)
    as (docs & Hd & _ & _).
  - split; reflexivity.
  - left. reflexivity.
  - exists docs. split; [exact Hd|].
    simpl in Hd. injection Hd as <-. reflexivity.
Defined.

(** C3 does not hold of the code: under enhanced processing an image and
    a table never reach lines 89 and 98, since line 79 takes them as
    [Text].  On a title, a paragraph, an image and a table with HTML,
    with a key and models that fail, the function calls no model and
    returns one unit, in which the texts of the image and of the table
    follow the paragraph; neither [[Image under 'Results']] nor
    [[Table under 'Results']] is emitted. *)
Lemma figure_is_chunked_as_text :
  partition_and_chunk (offline_world figure_elements) "report.pdf" true
    (Some "sk-test") "temp_data"
  = ([MakeDirs "temp_data/images"; PartitionPdf "report.pdf" "temp_data/images"],
     Returned
       [mkDocument ("Results" ++ NL ++ NL ++ "See the figure." ++ NL ++ NL ++ "a b")
                   (mkMetadata "report.pdf" 3 3)]).
Proof. reflexivity. Qed.






(** C8: chunking is idempotent.  Two runs on the same elements with the
    same flag return the same units, contents and metadata, in the same
    order, for either value of the flag: nothing in the result depends
    on what the outside answers in a run, nor on which key passes the
    check. *)
Theorem rechunking_is_identical
  (W1 W2 : World) (pdf_path temp_dir : string) (e : bool)
  (k1 k2 : option string) (els : list Element) :
  reads W1 pdf_path temp_dir els ->
  reads W2 pdf_path temp_dir els ->
  e = false \/ (truthy_opt k1 = true /\ truthy_opt k2 = true) ->
  exists docs,
    snd (partition_and_chunk W1 pdf_path e k1 temp_dir) = Returned docs
    /\ snd (partition_and_chunk W2 pdf_path e k2 temp_dir) = Returned docs.
Proof.
  intros Hr1 Hr2 Hc.
  assert (Hc1 : e = false \/ truthy_opt k1 = true) by tauto.
  assert (Hc2 : e = false \/ truthy_opt k2 = true) by tauto.
  rewrite (partition_and_chunk_reads _ _ _ _ _ _ Hr1 Hc1),
    (partition_and_chunk_reads _ _ _ _ _ _ Hr2 Hc2). simpl.
  destruct (finish_returns W1 pdf_path e k1 temp_dir els) as [docs Hd].
  exists docs. split; [assumption|].
  rewrite <- Hd. symmetry.
  apply finish_same_variables, loop_same_variables.
  repeat split.
Qed.

Lemma rechunking_is_identical_witness :
  exists docs,
    snd (partition_and_chunk (offline_world figure_elements) "report.pdf" true
           (Some "sk-test") "temp_data") = Returned docs
    /\ snd (partition_and_chunk (online_world figure_elements "A bar chart.")
              "report.pdf" true (Some "sk-test") "temp_data") = Returned docs.
Proof.
  apply (rechunking_is_identical (offline_world figure_elements)
           (online_world figure_elements "A bar chart.")
           "report.pdf" "temp_data" true (Some "sk-test") (Some "sk-test")
           figure_elements).
  - split; reflexivity.
  - split; reflexivity.
  - right. split; reflexivity.
Defined.

End ChunkerSpec.

(** ** The retriever builder, as the specification describes it *)

Module RetrieverSpec.

Import Py VectorStore.

(** C1, as the code has it: on an empty list of documents
    [create_retriever] raises nothing; it logs one warning and returns
    [None], never a retriever, whatever the key and [k]. *)
Theorem empty_documents_return_none
  (W : World) (key : option string) (k : Z) :
  create_retriever W [] key k
  = ([(WARNING, "No documents provided to create_retriever. Returning None.")],
     Returned None).
Proof. reflexivity. Qed.

(** C1 fails as stated: the call on the empty list returns normally;
    no exception is raised. *)
Lemma empty_documents_do_not_raise :
  snd (create_retriever embedding_world [] (Some "sk-test") default_k)
  = Returned None
  /\ forall exn,
       snd (create_retriever embedding_world [] (Some "sk-test") default_k)
       <> Raised exn.
Proof. split; [reflexivity | discriminate]. Qed.

(** C10: on a non-empty list of documents the parameter [k] has no
    effect: any two values of [k] give the same log and the same
    outcome.  Whenever a retriever is returned, it has depth 10 in both
    sub-retrievers and the weights 0.7 and 0.3; and it is returned when
    the embeddings client, the Chroma store and the BM25 index are
    built without an exception. *)
Theorem k_has_no_effect
  (W : World) (documents : list Document) (key : option string) (k k' : Z) :
  documents <> [] ->
  create_retriever W documents key k = create_retriever W documents key k'
  /\ (forall r,
        snd (create_retriever W documents key k) = Returned (Some r) ->
        r = mkEnsembleRetriever
              [Dense (mkVectorStoreRetriever
                        (mkChroma documents
                           (mkOpenAIEmbeddings "text-embedding-3-large" key))
                        [("k", 10%Z)]);
               Keyword (mkBM25Retriever documents 10%Z)]
              [7 # 10; 3 # 10]%Q)
  /\ (builds_embeddings W "text-embedding-3-large" key = true ->
      embeds W documents (mkOpenAIEmbeddings "text-embedding-3-large" key)
      = true ->
      builds_bm25 W documents = true ->
      snd (create_retriever W documents key k)
      = Returned
          (Some
             (mkEnsembleRetriever
                [Dense (mkVectorStoreRetriever
                          (mkChroma documents
                             (mkOpenAIEmbeddings "text-embedding-3-large" key))
                          [("k", 10%Z)]);
                 Keyword (mkBM25Retriever documents 10%Z)]
                [7 # 10; 3 # 10]%Q))).
Proof.
  intros Hne. split; [reflexivity|].
  destruct documents as [|d ds]; [contradiction|].
  unfold create_retriever, OpenAIEmbeddings_init, Chroma_from_documents,
    BM25Retriever_from_documents.
  split.
  - intros r.
    destruct (builds_embeddings W _ _); [|discriminate].
    destruct (embeds W _ _); [|discriminate].
    destruct (builds_bm25 W _); [|discriminate].
    simpl. now intros [= <-].
  - intros H1 H2 H3. now rewrite H1, H2, H3.
Qed.

Lemma k_has_no_effect_witness :
  create_retriever embedding_world two_units (Some "sk-test") default_k
  = create_retriever embedding_world two_units (Some "sk-test") 50%Z
  /\ snd (create_retriever embedding_world two_units (Some "sk-test") default_k)
     = Returned
         (Some
            (mkEnsembleRetriever
               [Dense (mkVectorStoreRetriever
                         (mkChroma two_units
                            (mkOpenAIEmbeddings "text-embedding-3-large"
                               (Some "sk-test")))
                         [("k", 10%Z)]);
                Keyword (mkBM25Retriever two_units 10%Z)]
               [7 # 10; 3 # 10]%Q)).
Proof.
  destruct (k_has_no_effect embedding_world two_units (Some "sk-test")
              default_k 50%Z) as (Hk & _ & Hok).
  - discriminate.
  - split; [exact Hk|]. apply Hok; reflexivity.
Defined.

(** A failure of the embedding call is not caught: it leaves
    [create_retriever] as it was raised, after three records are logged. *)
Lemma embedding_failure_propagates :
  create_retriever no_embedding_world two_units (Some "sk-test") default_k
  = ([(INFO, "Creating retriever for 2 documents...");
      (INFO, "Initializing OpenAI embeddings...");
      (INFO, "Creating Chroma vector store for dense retrieval...")],
     Raised (ExternalError
               (ChromaFromDocuments "text-embedding-3-large" (Some "sk-test")))).
Proof. reflexivity. Qed.

End RetrieverSpec.

(** ** More on the chunker *)

Module ChunkerMore.

Import Py DataProcessing ChunkerFacts ChunkerViews.

(** The exceptions [partition_and_chunk] can raise are the [ValueError]
    of the credential check, and what [os.makedirs] and [partition_pdf]
    raise; nothing raised by a model call, and no [NameError], leaves
    the function. *)
Theorem chunker_raises_only
  (W : World) (pdf_path temp_dir : string) (e : bool) (key : option string)
  (exn : Exn) :
  snd (partition_and_chunk W pdf_path e key temp_dir) = Raised exn <->
  (e = true /\ truthy_opt key = false
   /\ exn = ValueError "OpenAI API key is required for enhanced processing.")
  \/ ((e = false \/ truthy_opt key = true)
      /\ makedirs W (path_join temp_dir "images") = false
      /\ exn = ExternalError (MakeDirs (path_join temp_dir "images")))
  \/ ((e = false \/ truthy_opt key = true)
      /\ makedirs W (path_join temp_dir "images") = true
      /\ partition_pdf W pdf_path (path_join temp_dir "images") = None
      /\ exn = ExternalError
                 (PartitionPdf pdf_path (path_join temp_dir "images"))).
Proof.
  unfold partition_and_chunk.
  destruct e, (truthy_opt key) eqn:Hk; simpl;
    destruct (makedirs W _) eqn:Hm; simpl;
    try destruct (partition_pdf W _ _) as [els|] eqn:Hp; simpl;
    try (destruct (finish_returns W pdf_path true key temp_dir els)
           as [docs Hd]; unfold state_after in Hd; rewrite Hd);
    try (destruct (finish_returns W pdf_path false key temp_dir els)
           as [docs Hd]; unfold state_after in Hd; rewrite Hd);
    split; intros H;
    repeat match goal with
           | H : _ \/ _ |- _ => destruct H
           | H : _ /\ _ |- _ => destruct H
           end;
    try discriminate; try congruence;
    try (injection H as <-); subst; auto 10.
Qed.

(** *** How many units *)

Lemma flush_length (st : LoopState) (md : Metadata) :
  length (flush st md) = pending st.
Proof. unfold flush, pending. now destruct (truthy _). Qed.

Lemma pending_le_1 (st : LoopState) : pending st <= 1.
Proof. unfold pending. destruct (truthy _); lia. Qed.

Lemma body_count W pdf_path e key st i el :
  length (documents (loop_body W pdf_path e key st i el))
  + pending (loop_body W pdf_path e key st i el)
  <= length (documents st) + pending st
     + (if productive e el then 1 else 0).
Proof.
  rewrite body_documents, length_app.
  unfold loop_body, emitted, productive, summarized.
  destruct (is_title_or_header el) eqn:Ht.
  - rewrite flush_length. unfold pending at 2. simpl. lia.
  - destruct (is_narrative el) eqn:Hn; simpl.
    + match goal with
      | |- _ + _ + pending ?s <= _ => pose proof (pending_le_1 s)
      end. lia.
    + destruct e; simpl; [|unfold pending; simpl; lia].
      rewrite length_app, flush_length.
      assert (Hp : forall t c, pending (mkLoopState t (current_title st)
                      (if truthy (current_text_block st) then ""
                       else current_text_block st) (Some (element_metadata pdf_path i el)) c) = 0).
      { intros t c. unfold pending. simpl.
        destruct (truthy (current_text_block st)) eqn:Hb; [reflexivity|].
        now rewrite Hb. }
      destruct (el_class el); simpl; rewrite ?Hp; try lia.
      destruct (truthy_opt _); simpl; rewrite ?Hp; lia.
Qed.

Lemma loop_count W pdf_path e key (els : list Element) :
  forall i st,
    length (documents (loop W pdf_path e key i els st))
    + pending (loop W pdf_path e key i els st)
    <= length (documents st) + pending st
       + length (filter (productive e) els).
Proof.
  induction els as [|el els IH]; intros i st; simpl; [lia|].
  specialize (IH (S i) (loop_body W pdf_path e key st i el)).
  pose proof (body_count W pdf_path e key st i el) as Hb.
  destruct (productive e el); simpl; lia.
Qed.

Lemma finish_length (st : LoopState) (docs : list Document) :
  finish st = Returned docs -> length docs = length (documents st) + pending st.
Proof.
  unfold finish, pending. destruct (truthy _).
  - destruct (metadata st); [|discriminate].
    intros [= <-]. rewrite length_app. simpl. lia.
  - intros [= <-]. lia.
Qed.

(** The chunker never returns more units than the input has productive
    elements, those that pass the test of line 79.  In particular it
    returns no more units than there are elements. *)
Theorem units_at_most_productive_elements
  (W : World) (pdf_path temp_dir : string) (e : bool) (key : option string)
  (els : list Element) :
  reads W pdf_path temp_dir els ->
  e = false \/ truthy_opt key = true ->
  exists docs,
    snd (partition_and_chunk W pdf_path e key temp_dir) = Returned docs
    /\ length docs <= length (filter (productive e) els)
    /\ length docs <= length els.
Proof.
  intros Hr Hc.
  rewrite (partition_and_chunk_reads _ _ _ _ _ _ Hr Hc). simpl.
  destruct (finish_returns W pdf_path e key temp_dir els) as [docs Hd].
  exists docs. split; [assumption|].
  apply finish_length in Hd. unfold state_after in Hd.
  pose proof (loop_count W pdf_path e key els 0
                (initial_state [MakeDirs (path_join temp_dir "images");
                                PartitionPdf pdf_path
                                  (path_join temp_dir "images")])) as Hl.
  unfold pending at 2 in Hl. simpl in Hl.
  pose proof (filter_length_le (productive e) els).
  lia.
Qed.

Lemma units_at_most_productive_elements_witness :
  exists docs,
    snd (partition_and_chunk (offline_world figure_elements) "report.pdf" true
           (Some "sk-test") "temp_data") = Returned docs
    /\ length docs <= length (filter (productive true) figure_elements)
    /\ length docs <= length figure_elements.
Proof.
  apply (units_at_most_productive_elements (offline_world figure_elements)
           "report.pdf" "temp_data" true (Some "sk-test") figure_elements).
  - split; reflexivity.
  - right. reflexivity.
Defined.

Lemma loop_titles W pdf_path key (els : list Element) :
  forall i st,
    length (documents (loop W pdf_path false key i els st))
    <= length (documents st) + length (filter is_title_or_header els).
Proof.
  induction els as [|el els IH]; intros i st; simpl; [lia|].
  specialize (IH (S i) (loop_body W pdf_path false key st i el)).
  rewrite body_documents, length_app in IH.
  unfold emitted in IH.
  destruct (is_title_or_header el); simpl.
  - rewrite flush_length in IH. unfold pending in IH.
    destruct (truthy _); lia.
  - destruct (is_narrative el); simpl in IH; lia.
Qed.

(** Without enhanced processing a unit is flushed only at a title or
    header and at the end: the chunker returns at most one unit more
    than the input has Title and Header elements. *)
Theorem units_at_most_titles_plus_one
  (W : World) (pdf_path temp_dir : string) (key : option string)
  (els : list Element) :
  reads W pdf_path temp_dir els ->
  exists docs,
    snd (partition_and_chunk W pdf_path false key temp_dir) = Returned docs
    /\ length docs <= length (filter is_title_or_header els) + 1.
Proof.
  intros Hr.
  rewrite (partition_and_chunk_reads _ _ _ _ _ _ Hr (or_introl eq_refl)).
  simpl.
  destruct (finish_returns W pdf_path false key temp_dir els) as [docs Hd].
  exists docs. split; [assumption|].
  apply finish_length in Hd. unfold state_after in Hd.
  pose proof (loop_titles W pdf_path key els 0
                (initial_state [MakeDirs (path_join temp_dir "images");
                                PartitionPdf pdf_path
                                  (path_join temp_dir "images")])) as Hl.
  simpl in Hl. unfold pending in Hd. destruct (truthy _); lia.
Qed.

Lemma units_at_most_titles_plus_one_witness :
  exists docs,
    snd (partition_and_chunk (offline_world two_sections) "report.pdf" false
           None "temp_data") = Returned docs
    /\ length docs <= length (filter is_title_or_header two_sections) + 1.
Proof.
  apply (units_at_most_titles_plus_one (offline_world two_sections)
           "report.pdf" "temp_data" None two_sections).
  split; reflexivity.
Defined.

(** *** Which calls are made *)

Lemma body_calls W pdf_path e key st i el :
  calls (loop_body W pdf_path e key st i el) = calls st.
Proof.
  unfold loop_body, is_title_or_header, is_narrative.
  destruct (el_class el), e; reflexivity.
Qed.

Lemma loop_calls W pdf_path e key (els : list Element) :
  forall i st, calls (loop W pdf_path e key i els st) = calls st.
Proof.
  induction els as [|el els IH]; intros i st; simpl; [reflexivity|].
  now rewrite IH, body_calls.
Qed.

(** The only calls of a run that reads the PDF are [os.makedirs] and
    [partition_pdf]: no image is encoded and no model is called, under
    enhanced processing either, whatever images and tables the PDF
    has. *)
Theorem no_model_is_ever_called
  (W : World) (pdf_path temp_dir : string) (e : bool) (key : option string)
  (els : list Element) :
  reads W pdf_path temp_dir els ->
  e = false \/ truthy_opt key = true ->
  fst (partition_and_chunk W pdf_path e key temp_dir)
  = [MakeDirs (path_join temp_dir "images");
     PartitionPdf pdf_path (path_join temp_dir "images")].
Proof.
  intros Hr Hc.
  rewrite (partition_and_chunk_reads _ _ _ _ _ _ Hr Hc). simpl.
  unfold state_after. now rewrite loop_calls.
Qed.

Lemma no_model_is_ever_called_witness :
  fst (partition_and_chunk (online_world figure_elements "A bar chart.")
         "report.pdf" true (Some "sk-test") "temp_data")
  = [MakeDirs (path_join "temp_data" "images");
     PartitionPdf "report.pdf" (path_join "temp_data" "images")].
Proof.
  apply (no_model_is_ever_called
           (online_world figure_elements "A bar chart.")
           "report.pdf" "temp_data" true (Some "sk-test") figure_elements).
  - split; reflexivity.
  - right. reflexivity.
Defined.

(** *** When nothing is returned *)

Lemma truthy_app_NL (a b : string) : truthy (a ++ b ++ NL) = true.
Proof. destruct a; [destruct b|]; reflexivity. Qed.

Lemma body_started W pdf_path e key st i el :
  started (loop_body W pdf_path e key st i el)
  = started st || productive e el.
Proof.
  unfold loop_body, productive, summarized, flush, started.
  destruct (is_title_or_header el) eqn:Ht.
  - unfold is_title_or_header, is_narrative in *.
    destruct (el_class el); try discriminate; simpl;
      rewrite ?andb_false_r, ?orb_false_r;
      destruct (documents st), (truthy (current_text_block st)); reflexivity.
  - destruct (is_narrative el) eqn:Hn; simpl.
    + rewrite truthy_app_NL, orb_true_r. now destruct (documents st).
    + destruct e; simpl; [|now rewrite orb_false_r].
      destruct (el_class el); simpl; rewrite ?orb_false_r, ?orb_true_r;
        try (destruct (documents st), (truthy (current_text_block st)) eqn:Hb;
             simpl; rewrite ?Hb; reflexivity).
      destruct (truthy_opt _); simpl; rewrite ?orb_false_r, ?orb_true_r;
        destruct (documents st), (truthy (current_text_block st)) eqn:Hb;
        simpl; rewrite ?Hb; reflexivity.
Qed.

Lemma loop_started W pdf_path e key (els : list Element) :
  forall i st,
    started (loop W pdf_path e key i els st)
    = started st || existsb (productive e) els.
Proof.
  induction els as [|el els IH]; intros i st; simpl.
  - now rewrite orb_false_r.
  - now rewrite IH, body_started, orb_assoc.
Qed.

Lemma finish_empty (st : LoopState) (docs : list Document) :
  finish st = Returned docs -> (docs = [] <-> started st = false).
Proof.
  unfold finish, started.
  destruct (truthy (current_text_block st)) eqn:Hb.
  - destruct (metadata st); [|discriminate]. intros [= <-].
    destruct (documents st); simpl; split; discriminate.
  - intros [= <-]. destruct (documents st); split; auto; discriminate.
Qed.

(** The chunker returns no unit at all exactly when the input has no
    productive element, that is no element passing the test of line 79.
    Titles and headers alone give nothing. *)
Theorem no_unit_iff_no_productive_element
  (W : World) (pdf_path temp_dir : string) (e : bool) (key : option string)
  (els : list Element) :
  reads W pdf_path temp_dir els ->
  e = false \/ truthy_opt key = true ->
  exists docs,
    snd (partition_and_chunk W pdf_path e key temp_dir) = Returned docs
    /\ (docs = [] <-> existsb (productive e) els = false).
Proof.
  intros Hr Hc.
  rewrite (partition_and_chunk_reads _ _ _ _ _ _ Hr Hc). simpl.
  destruct (finish_returns W pdf_path e key temp_dir els) as [docs Hd].
  exists docs. split; [assumption|].
  rewrite (finish_empty _ _ Hd). unfold state_after.
  rewrite loop_started. reflexivity.
Qed.

Lemma no_unit_iff_no_productive_element_witness :
  exists docs,
    snd (partition_and_chunk
           (offline_world [plain Title "Cover"; plain Header "Company"])
           "report.pdf" false None "temp_data") = Returned docs
    /\ docs = [].
Proof.
  destruct (no_unit_iff_no_productive_element
              (offline_world [plain Title "Cover"; plain Header "Company"])
              "report.pdf" "temp_data" false None
              [plain Title "Cover"; plain Header "Company"])
    as (docs & Hd & Hiff).
  - split; reflexivity.
  - left. reflexivity.
  - exists docs. split; [exact Hd|]. apply Hiff. reflexivity.
Defined.

(** *** What the metadata of a unit refers to *)

Lemma loop_refers W pdf_path e key (all : list Element) (els : list Element) :
  forall pre st,
    all = pre ++ els ->
    Forall (fun d => exists el,
                nth_error all (unit_id d) = Some el
                /\ doc_metadata d = element_metadata pdf_path (unit_id d) el)
           (documents st) ->
    Forall (fun d => exists el,
                nth_error all (unit_id d) = Some el
                /\ doc_metadata d = element_metadata pdf_path (unit_id d) el)
           (documents (loop W pdf_path e key (length pre) els st)).
Proof.
  induction els as [|el els IH]; intros pre st Hall Hst; simpl; [assumption|].
  replace (S (length pre)) with (length (pre ++ [el]))
    by (rewrite length_app; simpl; lia).
  apply IH.
  - now rewrite <- app_assoc.
  - rewrite body_documents. apply Forall_app. split; [assumption|].
    eapply Forall_impl; [|apply emitted_metadata].
    intros d Hd. exists el. unfold unit_id. rewrite Hd. simpl.
    split; [|reflexivity].
    rewrite Hall, nth_error_app2 by lia.
    now rewrite Nat.sub_diag.
Qed.

Lemma returned_units_refer W pdf_path temp_dir e key els docs :
  finish (state_after W pdf_path e key temp_dir els) = Returned docs ->
  Forall (fun d => exists el,
              nth_error els (unit_id d) = Some el
              /\ doc_metadata d = element_metadata pdf_path (unit_id d) el)
         docs.
Proof.
  intros Hd.
  pose proof (loop_refers W pdf_path e key els els []
                (initial_state [MakeDirs (path_join temp_dir "images");
                                PartitionPdf pdf_path
                                  (path_join temp_dir "images")])
                eq_refl (Forall_nil _)) as Hl.
  simpl in Hl. unfold finish, state_after in Hd.
  destruct (truthy _); [|now injection Hd as <-].
  destruct els as [|e0 els'].
  - simpl in Hd. discriminate.
  - destruct (@exists_last _ (e0 :: els')) as [a [el Heq]]; [discriminate|].
    rewrite Heq in *. rewrite loop_metadata in Hd. injection Hd as <-.
    apply Forall_app. split; [assumption|].
    constructor; [|constructor].
    exists el. unfold unit_id. simpl. split; [|reflexivity].
    rewrite nth_error_app2 by lia. now rewrite Nat.sub_diag.
Qed.

(** A call that returns has read the PDF and passed the credential
    check. *)
Lemma returned_inversion W pdf_path temp_dir e key docs :
  snd (partition_and_chunk W pdf_path e key temp_dir) = Returned docs ->
  exists els,
    reads W pdf_path temp_dir els
    /\ (e = false \/ truthy_opt key = true)
    /\ finish (state_after W pdf_path e key temp_dir els) = Returned docs.
Proof.
  unfold partition_and_chunk, reads, state_after.
  destruct (e && negb (truthy_opt key)) eqn:Hc; [discriminate|].
  destruct (makedirs W _); [|discriminate].
  destruct (partition_pdf W _ _) as [els|]; [|discriminate].
  simpl. intros Hd. exists els. repeat split; try assumption.
  destruct e; [right|now left].
  now destruct (truthy_opt key).
Qed.

Lemma returned_units_source W pdf_path temp_dir e key docs :
  snd (partition_and_chunk W pdf_path e key temp_dir) = Returned docs ->
  Forall (fun d => source (doc_metadata d) = basename pdf_path) docs.
Proof.
  intros H. apply returned_inversion in H as (els & _ & _ & Hd).
  eapply Forall_impl; [|exact (returned_units_refer _ _ _ _ _ _ _ Hd)].
  intros d (el & _ & ->). reflexivity.
Qed.

(** Every unit returned refers to an element of the input: its
    [element_id] is the index of an element, its [page_number] is the
    page of that element (1 when the page is unknown or 0), and its
    [source] is the file name of the PDF. *)
Theorem unit_metadata_refers_to_element
  (W : World) (pdf_path temp_dir : string) (e : bool) (key : option string)
  (els : list Element) :
  reads W pdf_path temp_dir els ->
  e = false \/ truthy_opt key = true ->
  exists docs,
    snd (partition_and_chunk W pdf_path e key temp_dir) = Returned docs
    /\ Forall (fun d =>
                 exists el,
                   nth_error els (element_id (doc_metadata d)) = Some el
                   /\ md_page_number (doc_metadata d)
                      = int_or (page_number (el_metadata el)) 1
                   /\ source (doc_metadata d) = basename pdf_path)
              docs.
Proof.
  intros Hr Hc.
  rewrite (partition_and_chunk_reads _ _ _ _ _ _ Hr Hc). simpl.
  destruct (finish_returns W pdf_path e key temp_dir els) as [docs Hd].
  exists docs. split; [assumption|].
  eapply Forall_impl; [|exact (returned_units_refer _ _ _ _ _ _ _ Hd)].
  intros d (el & Hn & Hm). exists el. unfold unit_id in *.
  split; [assumption|]. now rewrite Hm.
Qed.

Lemma unit_metadata_refers_to_element_witness :
  exists docs,
    snd (partition_and_chunk (offline_world page_break_elements)
           "/data/report.pdf" false None "temp_data") = Returned docs
    /\ Forall (fun d =>
                 exists el,
                   nth_error page_break_elements (element_id (doc_metadata d))
                   = Some el
                   /\ md_page_number (doc_metadata d)
                      = int_or (page_number (el_metadata el)) 1
                   /\ source (doc_metadata d) = basename "/data/report.pdf")
              docs.
Proof.
  apply (unit_metadata_refers_to_element (offline_world page_break_elements)
           "/data/report.pdf" "temp_data" false None page_break_elements).
  - split; reflexivity.
  - left. reflexivity.
Defined.

(** *** Contents, whatever the position in the document *)

(** The contents an iteration emits, and the title and block it leaves,
    depend on the title and block it finds, not on the index, the path
    or the units emitted before. *)
Lemma body_contents_shift W1 W2 p1 p2 e k1 k2 s1 s2 i j el :
  e = false \/ (W1 = W2 /\ k1 = k2) ->
  current_title s1 = current_title s2 ->
  current_text_block s1 = current_text_block s2 ->
  map page_content (emitted W1 p1 e k1 s1 i el)
  = map page_content (emitted W2 p2 e k2 s2 j el)
  /\ current_title (loop_body W1 p1 e k1 s1 i el)
     = current_title (loop_body W2 p2 e k2 s2 j el)
  /\ current_text_block (loop_body W1 p1 e k1 s1 i el)
     = current_text_block (loop_body W2 p2 e k2 s2 j el).
Proof.
  intros He Ht Hb. unfold emitted, loop_body, flush.
  rewrite Ht, Hb.
  destruct (is_title_or_header el).
  { destruct (truthy _); simpl; auto. }
  destruct (is_narrative el); [simpl; auto|].
  destruct e; [|simpl; auto].
  destruct He as [He | [-> ->]]; [discriminate|].
  unfold image_document, table_document.
  destruct (el_class el); simpl;
    try (destruct (truthy (current_text_block s2)); simpl; auto; fail).
  - destruct (image_summary W2 k2 el);
      destruct (truthy (current_text_block s2)); simpl; auto.
  - destruct (truthy_opt _); [destruct (table_summary W2 k2 el)|];
      destruct (truthy (current_text_block s2)); simpl; auto.
Qed.

Lemma loop_contents_shift W1 W2 p1 p2 e k1 k2 (els : list Element) :
  e = false \/ (W1 = W2 /\ k1 = k2) ->
  forall i j s1 s2,
    current_title s1 = current_title s2 ->
    current_text_block s1 = current_text_block s2 ->
    exists more,
      map page_content (documents (loop W1 p1 e k1 i els s1))
      = map page_content (documents s1) ++ more
      /\ map page_content (documents (loop W2 p2 e k2 j els s2))
         = map page_content (documents s2) ++ more
      /\ current_title (loop W1 p1 e k1 i els s1)
         = current_title (loop W2 p2 e k2 j els s2)
      /\ current_text_block (loop W1 p1 e k1 i els s1)
         = current_text_block (loop W2 p2 e k2 j els s2).
Proof.
  intros He. induction els as [|el els IH]; intros i j s1 s2 Ht Hb; simpl.
  - exists []. now rewrite !app_nil_r.
  - destruct (body_contents_shift W1 W2 p1 p2 e k1 k2 s1 s2 i j el He Ht Hb)
      as (Hc & Ht' & Hb').
    destruct (IH (S i) (S j) _ _ Ht' Hb') as (more & H1 & H2 & H3 & H4).
    exists (map page_content (emitted W1 p1 e k1 s1 i el) ++ more).
    rewrite H1, H2, !body_documents, !map_app, <- !app_assoc, Hc. auto.
Qed.

(** Without enhanced processing an element that is neither a title nor
    narrative text changes nothing but the loop variable [metadata]. *)
Lemma loop_contents_kept W1 W2 p1 p2 k1 k2 (els : list Element) :
  forall i j s1 s2,
    current_title s1 = current_title s2 ->
    current_text_block s1 = current_text_block s2 ->
    exists more,
      map page_content (documents (loop W1 p1 false k1 i els s1))
      = map page_content (documents s1) ++ more
      /\ map page_content
           (documents (loop W2 p2 false k2 j (filter kept els) s2))
         = map page_content (documents s2) ++ more
      /\ current_title (loop W1 p1 false k1 i els s1)
         = current_title (loop W2 p2 false k2 j (filter kept els) s2)
      /\ current_text_block (loop W1 p1 false k1 i els s1)
         = current_text_block (loop W2 p2 false k2 j (filter kept els) s2).
Proof.
  induction els as [|el els IH]; intros i j s1 s2 Ht Hb; simpl.
  - exists []. now rewrite !app_nil_r.
  - destruct (kept el) eqn:Hk; simpl.
    + destruct (body_contents_shift W1 W2 p1 p2 false k1 k2 s1 s2 i j el
                  (or_introl eq_refl) Ht Hb) as (Hc & Ht' & Hb').
      destruct (IH (S i) (S j) _ _ Ht' Hb') as (more & H1 & H2 & H3 & H4).
      exists (map page_content (emitted W1 p1 false k1 s1 i el) ++ more).
      rewrite H1, H2, !body_documents, !map_app, <- !app_assoc, Hc. auto.
    + unfold kept in Hk. apply orb_false_elim in Hk as [Hti Hn].
      destruct (IH (S i) j (loop_body W1 p1 false k1 s1 i el) s2)
        as (more & H1 & H2 & H3 & H4).
      * unfold loop_body. now rewrite Hti, Hn.
      * unfold loop_body. now rewrite Hti, Hn.
      * exists more. rewrite H1, H2, H3, H4.
        unfold loop_body. rewrite Hti, Hn. simpl. auto.
Qed.

Lemma finish_contents (st : LoopState) (docs : list Document) :
  finish st = Returned docs ->
  map page_content docs
  = map page_content (documents st)
    ++ (if truthy (current_text_block st)
        then [(current_title st ++ NL ++ NL
               ++ strip (current_text_block st))%string]
        else []).
Proof.
  unfold finish. destruct (truthy _).
  - destruct (metadata st); [|discriminate]. intros [= <-].
    now rewrite map_app.
  - intros [= <-]. now rewrite app_nil_r.
Qed.

(** Without enhanced processing an element that is neither a title or
    header nor an instance of [Text] is ignored: the contents returned
    are those returned for the input without these elements, whatever
    the path, the key and the directory.  Images and tables are not
    among them: their text is kept. *)
Theorem unenhanced_ignores_other_elements
  (W1 W2 : World) (p1 p2 t1 t2 : string) (k1 k2 : option string)
  (els : list Element) :
  reads W1 p1 t1 els ->
  reads W2 p2 t2 (filter kept els) ->
  exists docs1 docs2,
    snd (partition_and_chunk W1 p1 false k1 t1) = Returned docs1
    /\ snd (partition_and_chunk W2 p2 false k2 t2) = Returned docs2
    /\ map page_content docs1 = map page_content docs2.
Proof.
  intros Hr1 Hr2.
  rewrite (partition_and_chunk_reads _ _ _ _ _ _ Hr1 (or_introl eq_refl)),
    (partition_and_chunk_reads _ _ _ _ _ _ Hr2 (or_introl eq_refl)). simpl.
  destruct (finish_returns W1 p1 false k1 t1 els) as [docs1 Hd1].
  destruct (finish_returns W2 p2 false k2 t2 (filter kept els)) as [docs2 Hd2].
  exists docs1, docs2. split; [assumption|]. split; [assumption|].
  rewrite (finish_contents _ _ Hd1), (finish_contents _ _ Hd2).
  unfold state_after.
  destruct (loop_contents_kept W1 W2 p1 p2 k1 k2 els 0 0
              (initial_state [MakeDirs (path_join t1 "images");
                              PartitionPdf p1 (path_join t1 "images")])
              (initial_state [MakeDirs (path_join t2 "images");
                              PartitionPdf p2 (path_join t2 "images")])
              eq_refl eq_refl) as (more & H1 & H2 & H3 & H4).
  now rewrite H1, H2, H3, H4.
Qed.

Lemma unenhanced_ignores_other_elements_witness :
  exists docs1 docs2,
    snd (partition_and_chunk
           (offline_world [plain Title "Results"; plain Text "See the figure.";
                           plain OtherElement "x"; plain Image "chart"])
           "a/report.pdf" false None "temp_data") = Returned docs1
    /\ snd (partition_and_chunk
              (online_world [plain Title "Results"; plain Text "See the figure.";
                             plain Image "chart"] "A bar chart.")
              "report.pdf" false (Some "sk-test") "/tmp") = Returned docs2
    /\ map page_content docs1 = map page_content docs2
    /\ map page_content docs2
       = [("Results" ++ NL ++ NL ++ "See the figure." ++ NL ++ "chart")%string].
Proof.
  destruct (unenhanced_ignores_other_elements
              (offline_world [plain Title "Results"; plain Text "See the figure.";
                              plain OtherElement "x"; plain Image "chart"])
              (online_world [plain Title "Results"; plain Text "See the figure.";
                             plain Image "chart"] "A bar chart.")
              "a/report.pdf" "report.pdf" "temp_data" "/tmp" None
              (Some "sk-test")
              [plain Title "Results"; plain Text "See the figure.";
               plain OtherElement "x"; plain Image "chart"])
    as (docs1 & docs2 & H1 & H2 & H12).
  - split; reflexivity.
  - split; reflexivity.
  - exists docs1, docs2. repeat split; try assumption.
    simpl in H2. injection H2 as <-. reflexivity.
Defined.

Lemma loop_reading W els' pdf_path e key (els : list Element) :
  forall i st,
    loop (reading W els') pdf_path e key i els st
    = loop W pdf_path e key i els st.
Proof.
  induction els as [|el els IH]; intros i st; simpl; [reflexivity|].
  now rewrite IH.
Qed.

(** A title or header starts afresh: the contents returned for a
    document are those returned for what precedes a Title or Header
    element, followed by those returned for the rest, that element
    included. *)
Theorem sections_are_chunked_independently
  (W : World) (pdf_path temp_dir : string) (e : bool) (key : option string)
  (pre post : list Element) (t : Element) :
  e = false \/ truthy_opt key = true ->
  is_title_or_header t = true ->
  contents (partition_and_chunk (reading W (pre ++ t :: post))
              pdf_path e key temp_dir)
  = contents (partition_and_chunk (reading W pre) pdf_path e key temp_dir)
    ++ contents (partition_and_chunk (reading W (t :: post))
                   pdf_path e key temp_dir).
Proof.
  intros Hc Ht.
  assert (Hreads : forall els, reads (reading W els) pdf_path temp_dir els)
    by (intros; split; reflexivity).
  unfold contents.
  rewrite !(partition_and_chunk_reads _ _ _ _ _ _ (Hreads _) Hc). simpl.
  destruct (finish_returns (reading W (pre ++ t :: post)) pdf_path e key
              temp_dir (pre ++ t :: post)) as [docs Hd].
  destruct (finish_returns (reading W pre) pdf_path e key temp_dir pre)
    as [docs1 Hd1].
  destruct (finish_returns (reading W (t :: post)) pdf_path e key temp_dir
              (t :: post)) as [docs2 Hd2].
  rewrite Hd, Hd1, Hd2.
  rewrite (finish_contents _ _ Hd), (finish_contents _ _ Hd1),
    (finish_contents _ _ Hd2).
  unfold state_after. rewrite !loop_reading.
  set (st0 := initial_state _).
  rewrite loop_app. simpl.
  set (sp := loop W pdf_path e key 0 pre st0).
  destruct (loop_contents_shift W W pdf_path pdf_path e key key post
              (or_intror (conj eq_refl eq_refl))
              (S (length pre)) 1
              (loop_body W pdf_path e key sp (length pre) t)
              (loop_body W pdf_path e key st0 0 t))
    as (more & H1 & H2 & H3 & H4).
  - unfold loop_body. now rewrite Ht.
  - unfold loop_body. now rewrite Ht.
  - rewrite H1, H2, H3, H4, !body_documents, !map_app.
    unfold emitted. rewrite Ht. unfold flush. simpl.
    destruct (truthy (current_text_block sp)); simpl;
      rewrite <- ?app_assoc; simpl; rewrite ?app_nil_r; reflexivity.
Qed.

Lemma sections_are_chunked_independently_witness :
  contents (partition_and_chunk
              (reading (offline_world [])
                 ([plain Title "Intro"; plain NarrativeText "Hello world."]
                  ++ plain Title "Section 2"
                     :: [plain NarrativeText "More text."]))
              "report.pdf" false None "temp_data")
  = contents (partition_and_chunk
                (reading (offline_world [])
                   [plain Title "Intro"; plain NarrativeText "Hello world."])
                "report.pdf" false None "temp_data")
    ++ contents (partition_and_chunk
                   (reading (offline_world [])
                      (plain Title "Section 2"
                       :: [plain NarrativeText "More text."]))
                   "report.pdf" false None "temp_data").
Proof.
  apply (sections_are_chunked_independently (offline_world []) "report.pdf"
           "temp_data" false None
           [plain Title "Intro"; plain NarrativeText "Hello world."]
           [plain NarrativeText "More text."] (plain Title "Section 2")).
  - left. reflexivity.
  - reflexivity.
Defined.

(** *** The contents, section by section *)

Lemma narrative_block_app_truthy (block : string) (body : list Element) :
  truthy (block ++ narrative_block body)
  = truthy block || existsb is_narrative body.
Proof.
  destruct block; simpl; [|reflexivity].
  apply truthy_narrative_block.
Qed.

Lemma loop_sections W pdf_path key (els : list Element) :
  forall i st docs,
    finish (loop W pdf_path false key i els st) = Returned docs ->
    map page_content docs
    = map page_content (documents st)
      ++ (if truthy (current_text_block st ++ narrative_block (fst (sections els)))
          then [(current_title st ++ NL ++ NL
                 ++ strip (current_text_block st
                           ++ narrative_block (fst (sections els))))%string]
          else [])
      ++ flat_map section_unit (snd (sections els)).
Proof.
  induction els as [|el els IH]; intros i st docs Hd.
  - simpl in *. rewrite string_app_empty_r, app_nil_r.
    now apply finish_contents.
  - simpl in Hd. apply IH in Hd. rewrite Hd. clear Hd IH.
    simpl. destruct (sections els) as [body later]. simpl.
    unfold loop_body.
    destruct (is_title_or_header el) eqn:Ht; simpl.
    + rewrite string_app_empty_r, map_app, <- app_assoc, truthy_narrative_block.
      unfold flush.
      destruct (truthy (current_text_block st));
        destruct (existsb is_narrative body); reflexivity.
    + destruct (is_narrative el) eqn:Hn; simpl.
      * now rewrite !string_app_assoc.
      * reflexivity.
Qed.

(** Without enhanced processing the contents returned are, in order,
    one unit for each section of the document that has narrative text:
    the elements before the first title under the empty title, then
    each title or header with what follows it. *)
Theorem unenhanced_contents_by_section
  (W : World) (pdf_path temp_dir : string) (key : option string)
  (els : list Element) :
  reads W pdf_path temp_dir els ->
  exists docs,
    snd (partition_and_chunk W pdf_path false key temp_dir) = Returned docs
    /\ map page_content docs
       = flat_map section_unit (("", fst (sections els)) :: snd (sections els)).
Proof.
  intros Hr.
  rewrite (partition_and_chunk_reads _ _ _ _ _ _ Hr (or_introl eq_refl)).
  simpl.
  destruct (finish_returns W pdf_path false key temp_dir els) as [docs Hd].
  exists docs. split; [assumption|].
  unfold state_after in Hd. apply loop_sections in Hd. rewrite Hd.
  simpl. now rewrite truthy_narrative_block.
Qed.

Lemma unenhanced_contents_by_section_witness :
  exists docs,
    snd (partition_and_chunk (offline_world page_break_elements)
           "report.pdf" false None "temp_data") = Returned docs
    /\ map page_content docs
       = flat_map section_unit
           (("", fst (sections page_break_elements))
            :: snd (sections page_break_elements)).
Proof.
  apply (unenhanced_contents_by_section (offline_world page_break_elements)
           "report.pdf" "temp_data" None page_break_elements).
  split; reflexivity.
Defined.

(** *** What does not depend on the models *)

Lemma body_same_layout W1 W2 pdf_path e k1 k2 s1 s2 i el :
  map doc_metadata (documents s1) = map doc_metadata (documents s2) ->
  current_title s1 = current_title s2 ->
  current_text_block s1 = current_text_block s2 ->
  map doc_metadata (documents (loop_body W1 pdf_path e k1 s1 i el))
  = map doc_metadata (documents (loop_body W2 pdf_path e k2 s2 i el))
  /\ current_title (loop_body W1 pdf_path e k1 s1 i el)
     = current_title (loop_body W2 pdf_path e k2 s2 i el)
  /\ current_text_block (loop_body W1 pdf_path e k1 s1 i el)
     = current_text_block (loop_body W2 pdf_path e k2 s2 i el).
Proof.
  intros Hd Ht Hb. unfold loop_body, flush. rewrite Ht, Hb.
  destruct (is_title_or_header el); [simpl; now rewrite !map_app, Hd|].
  destruct (is_narrative el); [simpl; auto|].
  destruct e; [|simpl; auto].
  unfold image_document, table_document.
  destruct (el_class el); simpl; rewrite ?map_app, ?Hd; auto.
  - destruct (image_summary W1 k1 el), (image_summary W2 k2 el);
      simpl; auto.
  - destruct (truthy_opt _); simpl; rewrite ?map_app, ?Hd; auto.
    destruct (table_summary W1 k1 el), (table_summary W2 k2 el);
      simpl; auto.
Qed.

Lemma loop_same_layout W1 W2 pdf_path e k1 k2 (els : list Element) :
  forall i s1 s2,
    map doc_metadata (documents s1) = map doc_metadata (documents s2) ->
    current_title s1 = current_title s2 ->
    current_text_block s1 = current_text_block s2 ->
    map doc_metadata (documents (loop W1 pdf_path e k1 i els s1))
    = map doc_metadata (documents (loop W2 pdf_path e k2 i els s2))
    /\ current_title (loop W1 pdf_path e k1 i els s1)
       = current_title (loop W2 pdf_path e k2 i els s2)
    /\ current_text_block (loop W1 pdf_path e k1 i els s1)
       = current_text_block (loop W2 pdf_path e k2 i els s2)
    /\ (els <> [] ->
        metadata (loop W1 pdf_path e k1 i els s1)
        = metadata (loop W2 pdf_path e k2 i els s2)).
Proof.
  induction els as [|el els IH]; intros i s1 s2 Hd Ht Hb; simpl.
  - repeat split; auto. contradiction.
  - destruct (body_same_layout W1 W2 pdf_path e k1 k2 s1 s2 i el Hd Ht Hb)
      as (Hd' & Ht' & Hb').
    destruct (IH (S i) _ _ Hd' Ht' Hb') as (H1 & H2 & H3 & H4).
    repeat split; auto. intros _.
    destruct els as [|el' els']; [|apply H4; discriminate].
    simpl. now rewrite !body_metadata.
Qed.

(** Whether the models answer or fail does not change how many units
    are returned nor what they refer to: two runs over the same
    elements, under any two keys that pass the check, return units with
    the same metadata, in the same order. *)
Theorem unit_layout_independent_of_models
  (W1 W2 : World) (pdf_path temp_dir : string) (e : bool)
  (k1 k2 : option string) (els : list Element) :
  reads W1 pdf_path temp_dir els ->
  reads W2 pdf_path temp_dir els ->
  e = false \/ (truthy_opt k1 = true /\ truthy_opt k2 = true) ->
  exists docs1 docs2,
    snd (partition_and_chunk W1 pdf_path e k1 temp_dir) = Returned docs1
    /\ snd (partition_and_chunk W2 pdf_path e k2 temp_dir) = Returned docs2
    /\ map doc_metadata docs1 = map doc_metadata docs2.
Proof.
  intros Hr1 Hr2 Hc.
  assert (Hc1 : e = false \/ truthy_opt k1 = true) by tauto.
  assert (Hc2 : e = false \/ truthy_opt k2 = true) by tauto.
  rewrite (partition_and_chunk_reads _ _ _ _ _ _ Hr1 Hc1),
    (partition_and_chunk_reads _ _ _ _ _ _ Hr2 Hc2). simpl.
  destruct (finish_returns W1 pdf_path e k1 temp_dir els) as [docs1 Hd1].
  destruct (finish_returns W2 pdf_path e k2 temp_dir els) as [docs2 Hd2].
  exists docs1, docs2. split; [assumption|]. split; [assumption|].
  unfold state_after, finish in *.
  destruct (loop_same_layout W1 W2 pdf_path e k1 k2 els 0
              (initial_state [MakeDirs (path_join temp_dir "images");
                              PartitionPdf pdf_path
                                (path_join temp_dir "images")])
              (initial_state [MakeDirs (path_join temp_dir "images");
                              PartitionPdf pdf_path
                                (path_join temp_dir "images")])
              eq_refl eq_refl eq_refl) as (H1 & H2 & H3 & H4).
  assert (Hne : truthy (current_text_block
                  (loop W1 pdf_path e k1 0 els
                     (initial_state [MakeDirs (path_join temp_dir "images");
                                     PartitionPdf pdf_path
                                       (path_join temp_dir "images")])))
                = true -> els <> []).
  { intros Hb ->. simpl in Hb. discriminate. }
  set (st1 := loop W1 pdf_path e k1 0 els _) in *.
  set (st2 := loop W2 pdf_path e k2 0 els _) in *.
  rewrite <- H3 in Hd2.
  destruct (truthy (current_text_block st1)) eqn:Hb.
  - rewrite <- H4 in Hd2 by auto.
    destruct (metadata st1); [|discriminate].
    injection Hd1 as <-. injection Hd2 as <-.
    rewrite !map_app, H1. reflexivity.
  - injection Hd1 as <-. injection Hd2 as <-. assumption.
Qed.

Lemma unit_layout_independent_of_models_witness :
  exists docs1 docs2,
    snd (partition_and_chunk (offline_world figure_elements) "report.pdf"
           true (Some "sk-test") "temp_data") = Returned docs1
    /\ snd (partition_and_chunk (online_world figure_elements "A bar chart.")
              "report.pdf" true (Some "sk-other") "temp_data")
       = Returned docs2
    /\ map doc_metadata docs1 = map doc_metadata docs2.
Proof.
  apply (unit_layout_independent_of_models (offline_world figure_elements)
           (online_world figure_elements "A bar chart.")
           "report.pdf" "temp_data" true (Some "sk-test") (Some "sk-other")
           figure_elements).
  - split; reflexivity.
  - split; reflexivity.
  - right. split; reflexivity.
Defined.

(** *** Images and tables *)

Lemma body_as_text W1 W2 pdf_path e k1 k2 s1 s2 i el :
  same_variables s1 s2 ->
  same_variables (loop_body W1 pdf_path e k1 s1 i el)
                 (loop_body W2 pdf_path e k2 s2 i (as_text el)).
Proof.
  intros (Hd & Ht & Hb & Hm).
  unfold same_variables, loop_body, flush, is_title_or_header, is_narrative,
    element_metadata, as_text.
  rewrite Hd, Ht, Hb.
  destruct (el_class el) eqn:Hc, e; simpl; rewrite ?Hc; simpl; auto.
Qed.

Lemma loop_as_text W1 W2 pdf_path e k1 k2 (els : list Element) :
  forall i s1 s2,
    same_variables s1 s2 ->
    same_variables (loop W1 pdf_path e k1 i els s1)
                   (loop W2 pdf_path e k2 i (map as_text els) s2).
Proof.
  induction els as [|el els IH]; intros i s1 s2 H12; simpl; [assumption|].
  apply IH. now apply body_as_text.
Qed.

(** With either value of the flag an image or a table is chunked as any
    [Text] element: its text joins the pending block, and no unit of its
    own is made.  The units returned for a document are those returned
    for the same elements with every image and table turned into a
    [Text] element of the same text and metadata. *)
Theorem images_and_tables_are_chunked_as_text
  (W1 W2 : World) (pdf_path temp_dir : string) (e : bool)
  (key : option string) (els : list Element) :
  reads W1 pdf_path temp_dir els ->
  reads W2 pdf_path temp_dir (map as_text els) ->
  e = false \/ truthy_opt key = true ->
  exists docs,
    snd (partition_and_chunk W1 pdf_path e key temp_dir) = Returned docs
    /\ snd (partition_and_chunk W2 pdf_path e key temp_dir) = Returned docs.
Proof.
  intros Hr1 Hr2 Hc.
  rewrite (partition_and_chunk_reads _ _ _ _ _ _ Hr1 Hc),
    (partition_and_chunk_reads _ _ _ _ _ _ Hr2 Hc). simpl.
  destruct (finish_returns W1 pdf_path e key temp_dir els) as [docs Hd].
  exists docs. split; [assumption|].
  rewrite <- Hd. symmetry.
  apply finish_same_variables, loop_as_text.
  repeat split.
Qed.

Lemma images_and_tables_are_chunked_as_text_witness :
  exists docs,
    snd (partition_and_chunk (online_world figure_elements "A bar chart.")
           "report.pdf" true (Some "sk-test") "temp_data") = Returned docs
    /\ snd (partition_and_chunk
              (offline_world (map as_text figure_elements))
              "report.pdf" true (Some "sk-test") "temp_data") = Returned docs.
Proof.
  apply (images_and_tables_are_chunked_as_text
           (online_world figure_elements "A bar chart.")
           (offline_world (map as_text figure_elements))
           "report.pdf" "temp_data" true (Some "sk-test") figure_elements).
  - split; reflexivity.
  - split; reflexivity.
  - right. reflexivity.
Defined.

End ChunkerMore.

(** ** Configuration, session and chat history *)

Module SessionFacts.

Import Py Dict Config ChatHistory.

Section DictFacts.

Context {V : Type}.

Implicit Types (d : dict V) (k : string) (v : V).

Lemma get_set_same d k v : get (set d k v) k = Some v.
Proof.
  induction d as [|[k' v'] d IH]; simpl.
  - now rewrite String.eqb_refl.
  - destruct (String.eqb k k') eqn:E; simpl.
    + now rewrite String.eqb_refl.
    + now rewrite E.
Qed.

Lemma get_set_other d k k' v : k' <> k -> get (set d k v) k' = get d k'.
Proof.
  intros Hne. induction d as [|[k0 v0] d IH]; simpl.
  - apply String.eqb_neq in Hne. now rewrite Hne.
  - destruct (String.eqb k k0) eqn:E; simpl.
    + apply String.eqb_eq in E. subst k0.
      apply String.eqb_neq in Hne. now rewrite Hne.
    + now rewrite IH.
Qed.

Lemma get_del_same d k : get (del d k) k = None.
Proof.
  induction d as [|[k0 v0] d IH]; simpl; [reflexivity|].
  destruct (String.eqb k k0) eqn:E; simpl; [assumption|].
  now rewrite E.
Qed.

Lemma get_del_other d k k' : k' <> k -> get (del d k) k' = get d k'.
Proof.
  intros Hne. induction d as [|[k0 v0] d IH]; simpl; [reflexivity|].
  destruct (String.eqb k k0) eqn:E; simpl.
  - apply String.eqb_eq in E. subst k0.
    apply String.eqb_neq in Hne. now rewrite Hne.
  - now rewrite IH.
Qed.

(** Storing again the value read changes nothing. *)
Lemma set_get_same d k v : get d k = Some v -> set d k v = d.
Proof.
  induction d as [|[k0 v0] d IH]; simpl; [discriminate|].
  destruct (String.eqb k k0) eqn:E.
  - apply String.eqb_eq in E. subst k0. now intros [= ->].
  - intros H. now rewrite IH.
Qed.

End DictFacts.

(** A key read by [get_openai_api_key] is a non-empty string. *)
Lemma openai_key_truthy (environ : Environ) (key : string) :
  snd (get_openai_api_key environ) = Returned key ->
  truthy_opt (Some key) = true.
Proof.
  unfold get_openai_api_key.
  destruct (getenv environ "OPENAI_API_KEY") as [k|]; [|discriminate].
  simpl. destruct (truthy k) eqn:Hk; simpl; [|discriminate].
  now intros [= <-].
Qed.

(** [get_openai_api_key] before [partition_and_chunk]: with a key read
    from the environment the chunker never raises its [ValueError],
    enhanced processing or not; it returns units, or raises what
    [os.makedirs] or [partition_pdf] raised. *)
Theorem environment_key_passes_credential_check
  (environ : Environ) (key : string) (W : DataProcessing.World)
  (pdf_path temp_dir : string) (e : bool) :
  snd (get_openai_api_key environ) = Returned key ->
  (exists docs,
     snd (DataProcessing.partition_and_chunk W pdf_path e (Some key) temp_dir)
     = Returned docs)
  \/ (exists c,
       snd (DataProcessing.partition_and_chunk W pdf_path e (Some key) temp_dir)
       = Raised (ExternalError c)).
Proof.
  intros Hkey. apply openai_key_truthy in Hkey.
  unfold DataProcessing.partition_and_chunk. rewrite Hkey, andb_false_r.
  destruct (DataProcessing.makedirs W _);
    [|right; eexists; reflexivity].
  destruct (DataProcessing.partition_pdf W _ _) as [els|];
    [|right; eexists; reflexivity].
  left. simpl.
  apply (ChunkerFacts.finish_returns W pdf_path e (Some key) temp_dir els).
Qed.

Lemma environment_key_passes_credential_check_witness :
  (exists docs,
     snd (DataProcessing.partition_and_chunk
            (DataProcessing.offline_world DataProcessing.figure_elements)
            "report.pdf" true (Some "sk-test") "temp_data")
     = Returned docs)
  \/ (exists c,
       snd (DataProcessing.partition_and_chunk
              (DataProcessing.offline_world DataProcessing.figure_elements)
              "report.pdf" true (Some "sk-test") "temp_data")
       = Raised (ExternalError c)).
Proof.
  apply (environment_key_passes_credential_check
           [("REDIS_URL", "redis://localhost:6379");
            ("OPENAI_API_KEY", "sk-test")] "sk-test").
  reflexivity.
Defined.

(** [load_hf_token] never changes the environment: the token it stores
    is the one it has just read under the same name. *)
Theorem load_hf_token_keeps_environment (environ : Environ) :
  snd (load_hf_token environ) = environ.
Proof.
  unfold load_hf_token, getenv.
  destruct (get environ "HUGGING_FACE_HUB_TOKEN") as [token|] eqn:Hg;
    [|reflexivity].
  destruct (truthy token); [|reflexivity].
  simpl. now apply set_get_same.
Qed.

Lemma session_id_is_stable_aux
  (uuid1 uuid2 : string) (session_state : SessionState) :
  get_session_id uuid2 (snd (get_session_id uuid1 session_state))
  = get_session_id uuid1 session_state
  /\ forall k, k <> "session_id" ->
       get (snd (get_session_id uuid1 session_state)) k = get session_state k.
Proof.
  unfold get_session_id, contains.
  destruct (get session_state "session_id") as [v|] eqn:Hg;
    repeat (rewrite ?Hg, ?get_set_same; cbn [negb snd fst]).
  - auto.
  - split; [reflexivity|]. intros k Hk. now apply get_set_other.
Qed.

(** The session identifier is created once: a second call of
    [get_session_id] returns the identifier of the first, whatever
    [uuid4] would give then, and leaves the session state as it is; and
    no call touches another key. *)
Theorem session_id_is_stable
  (uuid1 uuid2 : string) (session_state : SessionState) :
  get_session_id uuid2 (snd (get_session_id uuid1 session_state))
  = get_session_id uuid1 session_state
  /\ forall k, k <> "session_id" ->
       get (snd (get_session_id uuid1 session_state)) k = get session_state k.
Proof. apply session_id_is_stable_aux. Qed.

(** Across reruns of the page the chat history is the same: when the
    Redis URL is configured, a second call of [get_message_history]
    returns the handle of the first, for the same session and URL. *)
Theorem message_history_is_stable
  (uuid1 uuid2 : string) (environ : Environ) (session_state : SessionState)
  (url : string) :
  snd (get_redis_url environ) = Returned url ->
  exists id,
    get_message_history uuid1 environ session_state
    = (Returned (mkRedisChatMessageHistory id url),
       snd (get_session_id uuid1 session_state))
    /\ get_message_history uuid2 environ
         (snd (get_session_id uuid1 session_state))
       = (Returned (mkRedisChatMessageHistory id url),
          snd (get_session_id uuid1 session_state)).
Proof.
  intros Hurl. unfold get_message_history.
  destruct (session_id_is_stable_aux uuid1 uuid2 session_state) as [H _].
  rewrite H.
  destruct (get_session_id uuid1 session_state) as [id st1]. simpl.
  rewrite Hurl. eauto.
Qed.

Lemma message_history_is_stable_witness :
  exists id,
    get_message_history "6f1c" [("REDIS_URL", "redis://localhost:6379")]
      [("rag_chain", VNone)]
    = (Returned (mkRedisChatMessageHistory id "redis://localhost:6379"),
       snd (get_session_id "6f1c" [("rag_chain", VNone)]))
    /\ get_message_history "9a2e" [("REDIS_URL", "redis://localhost:6379")]
         (snd (get_session_id "6f1c" [("rag_chain", VNone)]))
       = (Returned (mkRedisChatMessageHistory id "redis://localhost:6379"),
          snd (get_session_id "6f1c" [("rag_chain", VNone)])).
Proof.
  apply (message_history_is_stable "6f1c" "9a2e"
           [("REDIS_URL", "redis://localhost:6379")] [("rag_chain", VNone)]
           "redis://localhost:6379").
  reflexivity.
Defined.

End SessionFacts.

(** ** More on the retriever builder *)

Module RetrieverMore.

Import Py VectorStore.

(** The three outcomes of [create_retriever]: [None] exactly on an empty
    list; a retriever exactly on a non-empty list for which the
    embeddings client, the Chroma store and the BM25 index are all
    built; an exception exactly on a non-empty list for which one of
    these three calls raises. *)
Theorem create_retriever_outcomes
  (W : World) (documents : list Document) (key : option string) (k : Z) :
  (snd (create_retriever W documents key k) = Returned None
   <-> documents = [])
  /\ ((exists r, snd (create_retriever W documents key k) = Returned (Some r))
      <-> documents <> []
          /\ builds_embeddings W "text-embedding-3-large" key = true
          /\ embeds W documents
               (mkOpenAIEmbeddings "text-embedding-3-large" key) = true
          /\ builds_bm25 W documents = true)
  /\ ((exists exn, snd (create_retriever W documents key k) = Raised exn)
      <-> documents <> []
          /\ (builds_embeddings W "text-embedding-3-large" key = false
              \/ embeds W documents
                   (mkOpenAIEmbeddings "text-embedding-3-large" key) = false
              \/ builds_bm25 W documents = false)).
Proof.
  unfold create_retriever, OpenAIEmbeddings_init, Chroma_from_documents,
    BM25Retriever_from_documents.
  destruct documents as [|d ds];
    [|destruct (builds_embeddings W _ _);
      [destruct (embeds W (d :: ds) _);
       [destruct (builds_bm25 W (d :: ds))|]|]];
    simpl;
    repeat match goal with
           | |- _ /\ _ => split
           | |- _ <-> _ => split
           | |- _ -> _ => intro
           | H : exists _, _ |- _ => destruct H
           | H : _ /\ _ |- _ => destruct H
           | H : _ \/ _ |- _ => destruct H
           end;
    try discriminate; try congruence; eauto 6.
Qed.

End RetrieverMore.

(** ** [process_pdf], from the upload to the session *)

Module AppFacts.

Import Py Dict Config ChatHistory App SessionFacts.

Lemma create_retriever_some (W : VectorStore.World) d ds key k :
  snd (VectorStore.create_retriever W (d :: ds) key k) <> Returned None.
Proof.
  unfold VectorStore.create_retriever, VectorStore.OpenAIEmbeddings_init,
    VectorStore.Chroma_from_documents,
    VectorStore.BM25Retriever_from_documents.
  destruct (VectorStore.builds_embeddings W _ _); [|discriminate].
  destruct (VectorStore.embeds W _ _); [|discriminate].
  destruct (VectorStore.builds_bm25 W _); discriminate.
Qed.

(** Runs [process_pdf] along each of its paths. *)
Ltac reduce_frames :=
  cbv beta iota delta [session_state ui tmp_file_path log_placeholder
                       session_after shown removed].

Ltac run_process_pdf W :=
  unfold process_pdf, try_block, show_log_file, bind, call, show, return_,
    ret, write_temporary_file, bind_log_placeholder, assign,
    reset_session_id, except_clause, finally_clause;
  reduce_frames;
  destruct (log_file_readable W) eqn:Hlog; reduce_frames;
  (destruct (snd (get_openai_api_key (environ W))) as [key|exn] eqn:Hkey;
   reduce_frames;
   [destruct (named_temporary_file W _) as [tmp|] eqn:Htmp; reduce_frames;
    [destruct (snd (DataProcessing.partition_and_chunk _ _ _ _ _))
       as [docs|exn] eqn:Hdocs; reduce_frames;
     [try (destruct docs as [|d ds]; reduce_frames;
           [|destruct (snd (VectorStore.create_retriever _ _ _ _))
               as [[retriever|]|exn] eqn:Hretr; reduce_frames;
             [destruct (snd (ChatLogic.get_rag_chain _ _ _))
                as [chain|exn] eqn:Hchain; reduce_frames
             |exfalso; exact (create_retriever_some _ _ _ _ _ Hretr)
             |]])
     |]
    |]
   |]).

(** The page never shows that the retriever could not be created: when
    [create_retriever] is reached the list of units is not empty, and
    it then returns a retriever or raises. *)
Theorem retriever_failure_message_is_never_shown
  (W : World) (qa_system_prompt : string) (uploaded_file : UploadedFile)
  (use_enhanced : bool) (session_state0 : SessionState) :
  ~ In (StError "Failed to create the document retriever. Check logs for details.")
       (shown (process_pdf W qa_system_prompt uploaded_file use_enhanced
                 session_state0)).
Proof.
  run_process_pdf W; simpl;
    intros H; repeat (destruct H as [H | H]; [discriminate|]);
    try contradiction.
Qed.

(** The session state that a successful run leaves. *)
Lemma updated_session (st0 : SessionState) (c f : Value) :
  let s2 := set (set st0 "rag_chain" c) "processed_file" f in
  let s3 := if contains s2 "session_id" then del s2 "session_id" else s2 in
  get s3 "rag_chain" = Some c
  /\ get s3 "processed_file" = Some f
  /\ get s3 "session_id" = None
  /\ forall k, k <> "rag_chain" -> k <> "processed_file" ->
       k <> "session_id" -> get s3 k = get st0 k.
Proof.
  cbv zeta. unfold contains.
  set (s2 := set (set st0 "rag_chain" c) "processed_file" f).
  assert (H1 : get s2 "rag_chain" = Some c).
  { unfold s2. rewrite get_set_other by discriminate. apply get_set_same. }
  assert (H2 : get s2 "processed_file" = Some f) by apply get_set_same.
  assert (H3 : forall k, k <> "rag_chain" -> k <> "processed_file" ->
                 get s2 k = get st0 k).
  { intros k Hk1 Hk2. unfold s2. now rewrite !get_set_other. }
  destruct (get s2 "session_id") eqn:Hs.
  - rewrite !get_del_other by discriminate. rewrite get_del_same.
    repeat split; auto.
    intros k Hk1 Hk2 Hk3. rewrite get_del_other by assumption. auto.
  - repeat split; auto.
Qed.

(** The session state changes exactly when success is shown.  Then it
    holds the new chain and the name of the upload, holds no session
    identifier, and its other keys are as before.  On every other path
    (a missing key, a failed extraction or embedding, no content) it is
    the session state the call started from: the chain of the document
    processed before stays in place. *)
Theorem session_changes_only_on_success
  (W : World) (qa_system_prompt : string) (uploaded_file : UploadedFile)
  (use_enhanced : bool) (session_state0 : SessionState) :
  (In success
      (shown (process_pdf W qa_system_prompt uploaded_file use_enhanced
                session_state0))
   /\ (exists chain,
         get (session_after (process_pdf W qa_system_prompt uploaded_file
                               use_enhanced session_state0)) "rag_chain"
         = Some (VChain chain))
   /\ get (session_after (process_pdf W qa_system_prompt uploaded_file
                            use_enhanced session_state0)) "processed_file"
      = Some (VStr (name uploaded_file))
   /\ get (session_after (process_pdf W qa_system_prompt uploaded_file
                            use_enhanced session_state0)) "session_id"
      = None
   /\ forall k, k <> "rag_chain" -> k <> "processed_file" ->
        k <> "session_id" ->
        get (session_after (process_pdf W qa_system_prompt uploaded_file
                              use_enhanced session_state0)) k
        = get session_state0 k)
  \/ (~ In success
          (shown (process_pdf W qa_system_prompt uploaded_file use_enhanced
                    session_state0))
      /\ session_after (process_pdf W qa_system_prompt uploaded_file
                          use_enhanced session_state0)
         = session_state0).
Proof.
  unfold success.
  run_process_pdf W;
    try (right; split; [|reflexivity]; simpl;
         intros H; repeat (destruct H as [H | H]; [discriminate|]);
         contradiction).
  left.
  destruct (updated_session session_state0 (VChain chain)
              (VStr (name uploaded_file))) as (H1 & H2 & H3 & H4).
  split; [simpl; auto 10|].
  split; [eexists; exact H1|]. auto.
Qed.

Lemma get_session_id_fresh (uuid4 : string) (st : SessionState) :
  get st "session_id" = None -> fst (get_session_id uuid4 st) = VStr uuid4.
Proof.
  intros H. unfold get_session_id, contains. rewrite H. cbn [negb].
  now rewrite get_set_same.
Qed.

(** A chat session survives a failed run and is reset by a successful
    one: after success the next [get_session_id] returns the fresh
    identifier, whatever identifier the session had; otherwise it
    returns what it would have returned before the run. *)
Theorem successful_run_starts_new_chat
  (W : World) (qa_system_prompt : string) (uploaded_file : UploadedFile)
  (use_enhanced : bool) (session_state0 : SessionState) (uuid4 : string) :
  (In success
      (shown (process_pdf W qa_system_prompt uploaded_file use_enhanced
                session_state0))
   /\ fst (get_session_id uuid4
             (session_after (process_pdf W qa_system_prompt uploaded_file
                               use_enhanced session_state0)))
      = VStr uuid4)
  \/ (~ In success
          (shown (process_pdf W qa_system_prompt uploaded_file use_enhanced
                    session_state0))
      /\ get_session_id uuid4
           (session_after (process_pdf W qa_system_prompt uploaded_file
                             use_enhanced session_state0))
         = get_session_id uuid4 session_state0).
Proof.
  unfold success.
  run_process_pdf W;
    try (right; split; [|reflexivity]; simpl;
         intros H; repeat (destruct H as [H | H]; [discriminate|]);
         contradiction).
  left.
  destruct (updated_session session_state0 (VChain chain)
              (VStr (name uploaded_file))) as (_ & _ & H3 & _).
  split; [simpl; auto 10|].
  apply get_session_id_fresh. exact H3.
Qed.

(** The temporary copy of the upload never outlives the call: once it
    is written, it is removed at the end if it still exists, on success
    and on every failure; nothing else is removed. *)
Theorem temporary_file_is_removed
  (W : World) (qa_system_prompt : string) (uploaded_file : UploadedFile)
  (use_enhanced : bool) (session_state0 : SessionState) :
  removed (process_pdf W qa_system_prompt uploaded_file use_enhanced
             session_state0)
  = match snd (get_openai_api_key (environ W)) with
    | Raised _ => []
    | Returned _ =>
        match named_temporary_file W (getvalue uploaded_file) with
        | Some path => if path_exists W path then [path] else []
        | None => []
        end
    end.
Proof.
  run_process_pdf W; reflexivity.
Qed.

(** What success means: the key was read, the upload was copied, the
    chunker returned units from the copy, a retriever was built over
    exactly these units and wrapped into the chain now in the session.
    The [source] of every unit is the name of the temporary copy (not
    the name of the upload). *)
Theorem success_runs_the_whole_pipeline
  (W : World) (qa_system_prompt : string) (uploaded_file : UploadedFile)
  (use_enhanced : bool) (session_state0 : SessionState) :
  In success
     (shown (process_pdf W qa_system_prompt uploaded_file use_enhanced
               session_state0)) ->
  exists key tmp docs retriever chain,
    snd (get_openai_api_key (environ W)) = Returned key
    /\ named_temporary_file W (getvalue uploaded_file) = Some tmp
    /\ snd (DataProcessing.partition_and_chunk (chunker W) tmp use_enhanced
              (Some key) (gettempdir W)) = Returned docs
    /\ docs <> []
    /\ Forall (fun d => DataProcessing.source (DataProcessing.doc_metadata d)
                        = basename tmp) docs
    /\ snd (VectorStore.create_retriever (store W) docs (Some key)
              VectorStore.default_k) = Returned (Some retriever)
    /\ snd (ChatLogic.get_rag_chain qa_system_prompt (environ W) retriever)
       = Returned chain
    /\ ChatLogic.har_retriever (ChatLogic.chain_retriever chain) = retriever
    /\ get (session_after (process_pdf W qa_system_prompt uploaded_file
                             use_enhanced session_state0)) "rag_chain"
       = Some (VChain chain).
Proof.
  unfold success.
  run_process_pdf W;
    try (simpl; intros H; repeat (destruct H as [H | H]; [discriminate|]);
         contradiction).
  intros _.
  destruct (updated_session session_state0 (VChain chain)
              (VStr (name uploaded_file))) as (H1 & _).
  exists key, tmp, (d :: ds), retriever, chain.
  repeat split; try assumption; try reflexivity; try discriminate.
  - exact (ChunkerMore.returned_units_source _ _ _ _ _ _ Hdocs).
  - unfold ChatLogic.get_rag_chain in Hchain.
    destruct (get_groq_api_key (environ W)) as [log [k|[m|n|c]]];
      simpl in Hchain; try discriminate.
    now injection Hchain as <-.
Qed.

Lemma success_runs_the_whole_pipeline_witness :
  exists key tmp docs retriever chain,
    snd (get_openai_api_key (environ ready_world)) = Returned key
    /\ named_temporary_file ready_world (getvalue sample_upload) = Some tmp
    /\ snd (DataProcessing.partition_and_chunk (chunker ready_world) tmp false
              (Some key) (gettempdir ready_world)) = Returned docs
    /\ docs <> []
    /\ Forall (fun d => DataProcessing.source (DataProcessing.doc_metadata d)
                        = basename tmp) docs
    /\ snd (VectorStore.create_retriever (store ready_world) docs (Some key)
              VectorStore.default_k) = Returned (Some retriever)
    /\ snd (ChatLogic.get_rag_chain sample_prompt (environ ready_world)
              retriever)
       = Returned chain
    /\ ChatLogic.har_retriever (ChatLogic.chain_retriever chain) = retriever
    /\ get (session_after (process_pdf ready_world sample_prompt sample_upload
                             false [("session_id", VStr "6f1c")])) "rag_chain"
       = Some (VChain chain).
Proof.
  apply (success_runs_the_whole_pipeline ready_world sample_prompt
           sample_upload false [("session_id", VStr "6f1c")]).
  vm_compute. auto 10.
Defined.

End AppFacts.

(** ** The chat page over the runs of a session *)

Module ChatFacts.

Import Py Chat.

Lemma questions_app (a b : list BaseMessage) :
  questions (a ++ b) = questions a ++ questions b.
Proof. unfold questions. now rewrite flat_map_app. Qed.

Lemma page_questions (rag_chain : Chain) messages prompt :
  questions (fst (chat_page (Some rag_chain) messages prompt))
  = questions messages ++ submitted [prompt].
Proof.
  unfold chat_page, submitted. simpl.
  destruct prompt as [q|]; [|now rewrite app_nil_r].
  destruct (truthy q); simpl; [|now rewrite app_nil_r].
  destruct (rag_chain _); simpl; rewrite ?questions_app; simpl;
    rewrite ?app_nil_r; reflexivity.
Qed.

Lemma page_extends (rag_chain : option Chain) messages prompt :
  exists more,
    fst (chat_page rag_chain messages prompt) = messages ++ more.
Proof.
  unfold chat_page.
  destruct rag_chain as [c|]; [|exists []; now rewrite app_nil_r].
  destruct prompt as [q|]; [|exists []; now rewrite app_nil_r].
  destruct (truthy q); simpl; [|exists []; now rewrite app_nil_r].
  destruct (c _); simpl; rewrite <- ?app_assoc; eauto.
Qed.

(** Every question submitted is stored, answered or not: after any
    runs of the page with a chain in place, the questions in the
    history are those it had, followed by the non-empty prompts, in
    order; and the history is only ever extended. *)
Theorem every_question_is_stored
  (rag_chain : Chain) (messages : list BaseMessage)
  (prompts : list (option string)) :
  questions (chat_session (Some rag_chain) messages prompts)
  = questions messages ++ submitted prompts
  /\ exists more,
       chat_session (Some rag_chain) messages prompts = messages ++ more.
Proof.
  unfold chat_session. revert messages.
  induction prompts as [|p prompts IH]; intros messages; cbn [fold_left].
  - unfold submitted. simpl. rewrite !app_nil_r.
    split; [reflexivity|]. exists []. now rewrite app_nil_r.
  - destruct (IH (fst (chat_page (Some rag_chain) messages p))) as [Hq [more Hm]].
    split.
    + rewrite Hq, page_questions. unfold submitted. simpl.
      now rewrite app_nil_r, <- app_assoc.
    + destruct (page_extends (Some rag_chain) messages p) as [m1 H1].
      rewrite Hm, H1, <- app_assoc. eauto.
Qed.

Lemma follow_snoc (n : nat) :
  forall messages q,
    length messages <= n ->
    answers_follow_questions messages = true ->
    answers_follow_questions (messages ++ [HumanMessage q]) = true
    /\ forall a,
        answers_follow_questions (messages ++ [HumanMessage q; AIMessage a])
        = true.
Proof.
  induction n as [|n IH]; intros messages q Hl Hw.
  - destruct messages; [simpl; auto|simpl in Hl; lia].
  - destruct messages as [|[c|c] rest]; [simpl; auto| |discriminate].
    destruct rest as [|[c'|c'] rest'].
    + simpl. auto.
    + change (answers_follow_questions (HumanMessage c' :: rest') = true) in Hw.
      destruct (IH (HumanMessage c' :: rest') q) as [H1 H2];
        [simpl in *; lia | assumption |].
      split; [exact H1 | exact H2].
    + change (answers_follow_questions rest' = true) in Hw.
      destruct (IH rest' q) as [H1 H2]; [simpl in *; lia | assumption |].
      split; [exact H1 | exact H2].
Qed.

Lemma page_follows (rag_chain : option Chain) messages prompt :
  answers_follow_questions messages = true ->
  answers_follow_questions (fst (chat_page rag_chain messages prompt)) = true.
Proof.
  intros Hw. unfold chat_page.
  destruct rag_chain as [c|]; [|assumption].
  destruct prompt as [q|]; [|assumption].
  destruct (truthy q); simpl; [|assumption].
  destruct (follow_snoc (length messages) messages q (le_n _) Hw) as [H1 H2].
  destruct (c _); simpl; [|assumption].
  rewrite <- app_assoc. apply H2.
Qed.

(** In the stored history every answer directly follows a question:
    the runs of the page keep this, with any chain, whether its calls
    succeed or raise. *)
Theorem answers_always_follow_questions
  (rag_chain : option Chain) (messages : list BaseMessage)
  (prompts : list (option string)) :
  answers_follow_questions messages = true ->
  answers_follow_questions (chat_session rag_chain messages prompts) = true.
Proof.
  unfold chat_session. revert messages.
  induction prompts as [|p prompts IH]; intros messages Hw; cbn [fold_left];
    [assumption|].
  apply IH. now apply page_follows.
Qed.

Lemma answers_always_follow_questions_witness :
  answers_follow_questions
    (chat_session (Some counting_chain) []
       [Some "What is the budget?"; None; Some "?"; Some "";
        Some "And the deadline?"])
  = true.
Proof.
  apply (answers_always_follow_questions (Some counting_chain) []
           [Some "What is the budget?"; None; Some "?"; Some "";
            Some "And the deadline?"]).
  reflexivity.
Defined.

End ChatFacts.
